(** * IBAN validation and decomposition: [src/utils/ibanUtils.ts]

    A shallow embedding of the five exported functions of [ibanUtils.ts]
    ([formatIban], [validateIban], [getCountryFromIban],
    [getValidationMessage], [extractBankAccountInfo]) together with the
    ECMAScript built-ins they call, followed by the properties the
    specification states about them.

    A JavaScript string is a sequence of UTF-16 code units; regular
    expressions without the [u] flag, [length], [slice], [split('')] and
    [charCodeAt] all work on code units, so a string is a [list N] here.
    The only call that can throw is [BigInt(numeric)] (a [SyntaxError] on
    text that is not an integer literal): functions that reach it return
    an [option], [None] standing for the exception. *)

From Stdlib Require Import String Ascii.
From Stdlib Require Import List NArith ZArith Bool Lia.
Import ListNotations.

Local Open Scope N_scope.

(** ** Strings of code units *)

Definition jsstring := list N.

(** An ASCII literal of the source as code units. *)
Definition js (s : string) : jsstring :=
  map N_of_ascii (list_ascii_of_string s).

Definition jsstring_eqb (a b : jsstring) : bool :=
  if list_eq_dec N.eq_dec a b then true else false.

(** [s.length] *)
Definition jslength (s : jsstring) : Z := Z.of_nat (length s).

(** [!s] for a string: only the empty string is falsy. *)
Definition falsy (s : jsstring) : bool :=
  match s with [] => true | _ :: _ => false end.

(** ** Character classes *)

Definition inRange (lo hi c : N) : bool := (lo <=? c) && (c <=? hi).

Definition isDigit (c : N) : bool := inRange 48 57 c.      (* [0-9] *)
Definition isUpper (c : N) : bool := inRange 65 90 c.      (* [A-Z] *)
Definition isLower (c : N) : bool := inRange 97 122 c.     (* [a-z] *)
Definition isUpperOrDigit (c : N) : bool :=                (* [0-9A-Z] *)
  isDigit c || isUpper c.
Definition isAlnum (c : N) : bool :=                       (* [a-zA-Z0-9] *)
  isLower c || isUpper c || isDigit c.
Definition isAscii (c : N) : bool := c <? 128.

(** The class [\s], which is also what [trim] removes: ECMAScript's
    WhiteSpace (TAB, VT, FF, SP, NBSP, ZWNBSP and the Unicode category Zs)
    and LineTerminator (LF, CR, LS, PS). *)
Definition isWhiteSpace (c : N) : bool :=
  inRange 9 13 c || (c =? 32) || (c =? 160) || (c =? 5760)
  || inRange 8192 8202 c || (c =? 8232) || (c =? 8233) || (c =? 8239)
  || (c =? 8287) || (c =? 12288) || (c =? 65279).

(** ** Built-ins on strings *)

(** [s.replace(/\s/g, '')] *)
Definition removeWhitespace (s : jsstring) : jsstring :=
  filter (fun c => negb (isWhiteSpace c)) s.

(** [s.replace(/[^a-zA-Z0-9]/g, '')] *)
Definition removeNonAlnum (s : jsstring) : jsstring :=
  filter isAlnum s.

Fixpoint trimStart (s : jsstring) : jsstring :=
  match s with
  | c :: t => if isWhiteSpace c then trimStart t else s
  | [] => []
  end.

(** [s.trim()] *)
Definition trim (s : jsstring) : jsstring :=
  rev (trimStart (rev (trimStart s))).

(** [s.slice(start, end)] and [s.slice(start)]: a negative index counts
    from the end, both indices are clamped to [0 .. s.length], and an
    empty span gives the empty string. *)
Definition clampIndex (len i : Z) : Z :=
  if (i <? 0)%Z then Z.max (len + i) 0 else Z.min i len.

Definition slice (s : jsstring) (start : Z) (stop : option Z) : jsstring :=
  let len := jslength s in
  let from := clampIndex len start in
  let to := match stop with Some e => clampIndex len e | None => len end in
  firstn (Z.to_nat (Z.max (to - from) 0)) (skipn (Z.to_nat from) s).

(** ** Case conversion

    [toUpperCase] decodes the code units into code points
    (StringToCodePoints: a lead surrogate followed by a trail surrogate is
    one code point, any other unit stands for itself), maps every code
    point through the Unicode full upper-case mapping, and encodes the
    result again.  On Basic Latin the mapping is [a-z] to [A-Z]; for the
    other code points it is the data of the Unicode Character Database,
    which the development takes as a parameter. *)

Class UnicodeData := fullUpper : N -> list N.

Definition isLead (c : N) : bool := inRange 55296 56319 c.
Definition isTrail (c : N) : bool := inRange 56320 57343 c.

Fixpoint codePoints (s : jsstring) : list N :=
  match s with
  | [] => []
  | hi :: t =>
      match t with
      | lo :: rest =>
          if isLead hi && isTrail lo
          then ((hi - 55296) * 1024 + (lo - 56320) + 65536) :: codePoints rest
          else hi :: codePoints t
      | [] => [hi]
      end
  end.

Definition codeUnits (cp : N) : jsstring :=
  if cp <? 65536 then [cp]
  else [55296 + (cp - 65536) / 1024; 56320 + (cp - 65536) mod 1024].

Definition asciiUpper (c : N) : N := if isLower c then c - 32 else c.

Definition upperCodePoint {UCD : UnicodeData} (cp : N) : list N :=
  if isAscii cp then [asciiUpper cp] else fullUpper cp.

(** [s.toUpperCase()] *)
Definition toUpperCase {UCD : UnicodeData} (s : jsstring) : jsstring :=
  flat_map codeUnits (flat_map upperCodePoint (codePoints s)).

(** ** Numbers and big integers *)

Fixpoint uintDigits (d : Decimal.uint) : jsstring :=
  match d with
  | Decimal.Nil => []
  | Decimal.D0 r => 48 :: uintDigits r
  | Decimal.D1 r => 49 :: uintDigits r
  | Decimal.D2 r => 50 :: uintDigits r
  | Decimal.D3 r => 51 :: uintDigits r
  | Decimal.D4 r => 52 :: uintDigits r
  | Decimal.D5 r => 53 :: uintDigits r
  | Decimal.D6 r => 54 :: uintDigits r
  | Decimal.D7 r => 55 :: uintDigits r
  | Decimal.D8 r => 56 :: uintDigits r
  | Decimal.D9 r => 57 :: uintDigits r
  end.

(** [n.toString()] for a non-negative integer [n]: its decimal digits. *)
Definition numberToString (n : N) : jsstring := uintDigits (N.to_uint n).

(** The value of one digit in the given radix, letters of either case
    standing for ten and above. *)
Definition digitValue (radix c : N) : option N :=
  let v := if isDigit c then Some (c - 48)
           else if isLower c then Some (c - 87)
           else if isUpper c then Some (c - 55)
           else None in
  match v with
  | Some d => if d <? radix then Some d else None
  | None => None
  end.

Fixpoint parseDigits (radix acc : N) (s : jsstring) : option N :=
  match s with
  | [] => Some acc
  | c :: t =>
      match digitValue radix c with
      | Some d => parseDigits radix (acc * radix + d) t
      | None => None
      end
  end.

Definition parseNumeral (radix : N) (s : jsstring) : option Z :=
  match s with
  | [] => None
  | _ :: _ => option_map Z.of_N (parseDigits radix 0 s)
  end.

(** [BigInt(s)] for a string [s] (StringToBigInt): white space around the
    literal is dropped; the empty literal is [0n]; a decimal literal may
    carry a sign; [0x], [0o] and [0b] literals may not; anything else is a
    [SyntaxError], here [None]. *)
Definition BigInt (s : jsstring) : option Z :=
  match trim s with
  | [] => Some 0%Z
  | 43 :: ds => parseNumeral 10 ds
  | 45 :: ds => option_map Z.opp (parseNumeral 10 ds)
  | 48 :: x :: ds =>
      if (x =? 120) || (x =? 88) then parseNumeral 16 ds
      else if (x =? 111) || (x =? 79) then parseNumeral 8 ds
      else if (x =? 98) || (x =? 66) then parseNumeral 2 ds
      else parseNumeral 10 (48 :: x :: ds)
  | ds => parseNumeral 10 ds
  end.

(** ** The regular expressions of the module *)

(** [/^[A-Z]{2}[0-9A-Z]{2,}$/.test(s)]; without the [m] flag [$] is the
    end of the input. *)
Definition testIbanFormat (s : jsstring) : bool :=
  match s with
  | a :: b :: rest =>
      isUpper a && isUpper b && (2 <=? length rest)%nat
      && forallb isUpperOrDigit rest
  | _ => false
  end.

(** [/^[A-Z]{2}/.test(s)] *)
Definition testCountryPrefix (s : jsstring) : bool :=
  match s with
  | a :: b :: _ => isUpper a && isUpper b
  | _ => false
  end.

(** [.] of a regular expression: any code unit but a line terminator. *)
Definition isDot (c : N) : bool :=
  negb ((c =? 10) || (c =? 13) || (c =? 8232) || (c =? 8233)).

(** [s.replace(/(.{4})(?=.)/g, '$1 ')]: scanning from the left, four
    [.] units that are followed by a fifth get a space after them and the
    scan goes on behind the four; elsewhere it moves on by one unit. *)
Fixpoint spaceEveryFour (s : jsstring) : jsstring :=
  match s with
  | [] => []
  | a :: t =>
      match t with
      | b :: c :: d :: ((e :: _) as rest) =>
          if isDot a && isDot b && isDot c && isDot d && isDot e
          then a :: b :: c :: d :: 32 :: spaceEveryFour rest
          else a :: spaceEveryFour t
      | _ => a :: spaceEveryFour t
      end
  end.

(** ** The module *)

Section IbanUtils.

Context {UCD : UnicodeData}.

(** The [cleanedIban] of [formatIban]: the text with everything but
    letters and digits removed, in upper case. *)
Definition normalize (iban : jsstring) : jsstring :=
  toUpperCase (removeNonAlnum iban).

Definition formatIban (iban : jsstring) : jsstring :=
  let cleanedIban := normalize iban in
  spaceEveryFour cleanedIban.

(** The callback of [rearranged.split('').map(...)], on the code unit of
    the one-unit string it is given; the subtraction is behind the test
    [code >= 65]. *)
Definition expandChar (code : N) : jsstring :=
  if (65 <=? code) && (code <=? 90) then numberToString (code - 55)
  else [code].

(** The [numeric] of [validateIban], from its [cleanedIban]. *)
Definition numericOf (cleanedIban : jsstring) : jsstring :=
  let rearranged :=
    slice cleanedIban 4 None ++ slice cleanedIban 0 (Some 4%Z) in
  flat_map expandChar rearranged.

Definition validateIban (iban : jsstring) : option bool :=
  if falsy iban then Some false
  else
    let cleanedIban := toUpperCase (removeWhitespace iban) in
    if negb (testIbanFormat cleanedIban) then Some false
    else if (jslength cleanedIban <? 15)%Z || (34 <? jslength cleanedIban)%Z
    then Some false
    else
      let numeric := numericOf cleanedIban in
      match BigInt numeric with
      | Some n => Some (Z.rem n 97 =? 1)%Z
      | None => None
      end.

Definition getCountryFromIban (iban : jsstring) : jsstring :=
  if falsy iban || (jslength iban <? 2)%Z then []
  else
    let countryCode := slice (toUpperCase (trim iban)) 0 (Some 2%Z) in
    countryCode.

Record ValidationResult := {
  isValid : bool;
  message : string
}.

Definition getValidationMessage (iban : jsstring) : option ValidationResult :=
  if falsy iban
  then Some {| isValid := false; message := "Please enter an IBAN" |}
  else
    let cleanedIban := removeWhitespace iban in
    if (jslength cleanedIban <? 15)%Z
    then Some {| isValid := false; message := "IBAN is too short" |}
    else if (34 <? jslength cleanedIban)%Z
    then Some {| isValid := false; message := "IBAN is too long" |}
    else if negb (testCountryPrefix (toUpperCase cleanedIban))
    then Some {| isValid := false;
                 message := "IBAN must start with a country code (2 letters)" |}
    else
      match validateIban cleanedIban with
      | Some true => Some {| isValid := true; message := "Valid IBAN" |}
      | Some false => Some {| isValid := false; message := "Invalid IBAN." |}
      | None => None
      end.

(** The object [extractBankAccountInfo] returns; its [isValid] and
    [message] carry a prefix here, the plain names being those of
    [ValidationResult]. *)
Record BankAccountInfo := {
  info_isValid : bool;
  countryCode : jsstring;
  bankCode : jsstring;
  branchCode : jsstring;
  accountNumber : jsstring;
  info_message : string
}.

(** The three [let] variables the [switch] assigns, as
    [(bankCode, branchCode, accountNumber)]; each starts empty. *)
Definition parseByCountry (countryCode cleanedIban : jsstring)
  : jsstring * jsstring * jsstring :=
  let len := jslength cleanedIban in
  if jsstring_eqb countryCode (js "DE") then
    if (len =? 22)%Z
    then (slice cleanedIban 4 (Some 12%Z), [], slice cleanedIban 12 (Some 22%Z))
    else ([], [], [])
  else if jsstring_eqb countryCode (js "FR") then
    if (len =? 27)%Z
    then (slice cleanedIban 4 (Some 9%Z), slice cleanedIban 9 (Some 14%Z),
          slice cleanedIban 14 (Some 25%Z))
    else ([], [], [])
  else if jsstring_eqb countryCode (js "GB") then
    if (len =? 22)%Z
    then (slice cleanedIban 4 (Some 8%Z), slice cleanedIban 8 (Some 14%Z),
          slice cleanedIban 14 (Some 22%Z))
    else ([], [], [])
  else
    if (15 <=? len)%Z
    then (slice cleanedIban 4 (Some 8%Z), [], slice cleanedIban 8 None)
    else ([], [], []).

Definition extractBankAccountInfo (iban : jsstring) : option BankAccountInfo :=
  let cleanedIban := toUpperCase (removeWhitespace iban) in
  let countryCode := getCountryFromIban cleanedIban in
  match validateIban cleanedIban with
  | None => None
  | Some false =>
      Some {| info_isValid := false;
              countryCode := countryCode;
              bankCode := [];
              branchCode := [];
              accountNumber := [];
              info_message :=
                "Invalid IBAN. Cannot extract account information." |}
  | Some true =>
      let '(bankCode, branchCode, accountNumber) :=
        parseByCountry countryCode cleanedIban in
      Some {| info_isValid := true;
              countryCode := countryCode;
              bankCode := bankCode;
              branchCode := branchCode;
              accountNumber := accountNumber;
              info_message :=
                if falsy bankCode
                then "Partial information extracted due to unknown country format"
                else "Successfully extracted bank account information" |}
  end.

End IbanUtils.

(** ** The validator component

    The two event handlers of the component [IbanValidator] that call the
    module.  The [useState] cells are the fields of a record, a setter is
    a new value for its field, and a handler takes the state the render
    closed over to the state of the next render.  The item [ibanHistory]
    of [localStorage] holds the JSON text of an array of strings that
    only [handleSubmit] writes: it is kept as that array, [None] when the
    item is absent ([getItem] gives [null] and the handler parses
    ['[]']).  A handler that would throw gives [None]. *)

Record ValidatorState := {
  st_iban : jsstring;
  st_formattedIban : jsstring;
  st_validationResult : option ValidationResult;
  st_bankInfo : option BankAccountInfo;
  st_isSubmitted : bool;
  st_storedHistory : option (list jsstring)
}.

(** [useState('')], [useState(null)], [useState(false)]. *)
Definition initialState (stored : option (list jsstring)) : ValidatorState :=
  {| st_iban := [];
     st_formattedIban := [];
     st_validationResult := None;
     st_bankInfo := None;
     st_isSubmitted := false;
     st_storedHistory := stored |}.

(** [JSON.parse(localStorage.getItem('ibanHistory') || '[]')] *)
Definition parseHistory (stored : option (list jsstring)) : list jsstring :=
  match stored with
  | Some history => history
  | None => []
  end.

(** [history.includes(formattedIban)] *)
Definition includes (history : list jsstring) (entry : jsstring) : bool :=
  existsb (jsstring_eqb entry) history.

Section Component.

Context {UCD : UnicodeData}.

Definition handleInputChange (input : jsstring) (st : ValidatorState)
  : option ValidatorState :=
  let iban' := removeWhitespace input in
  let formattedIban' := formatIban input in
  if st_isSubmitted st then
    match getValidationMessage input with
    | None => None
    | Some result =>
        if isValid result then
          match extractBankAccountInfo input with
          | None => None
          | Some info =>
              Some {| st_iban := iban';
                      st_formattedIban := formattedIban';
                      st_validationResult := Some result;
                      st_bankInfo := Some info;
                      st_isSubmitted := st_isSubmitted st;
                      st_storedHistory := st_storedHistory st |}
          end
        else
          Some {| st_iban := iban';
                  st_formattedIban := formattedIban';
                  st_validationResult := Some result;
                  st_bankInfo := None;
                  st_isSubmitted := st_isSubmitted st;
                  st_storedHistory := st_storedHistory st |}
    end
  else
    Some {| st_iban := iban';
            st_formattedIban := formattedIban';
            st_validationResult := st_validationResult st;
            st_bankInfo := st_bankInfo st;
            st_isSubmitted := st_isSubmitted st;
            st_storedHistory := st_storedHistory st |}.

Definition handleSubmit (st : ValidatorState) : option ValidatorState :=
  match getValidationMessage (st_iban st) with
  | None => None
  | Some result =>
      if isValid result then
        match extractBankAccountInfo (st_iban st) with
        | None => None
        | Some info =>
            let history := parseHistory (st_storedHistory st) in
            let stored' :=
              if negb (includes history (st_formattedIban st))
              then
                let newHistory :=
                  firstn 5 (st_formattedIban st :: history) in
                Some newHistory
              else st_storedHistory st in
            Some {| st_iban := st_iban st;
                    st_formattedIban := st_formattedIban st;
                    st_validationResult := Some result;
                    st_bankInfo := Some info;
                    st_isSubmitted := true;
                    st_storedHistory := stored' |}
        end
      else
        Some {| st_iban := st_iban st;
                st_formattedIban := st_formattedIban st;
                st_validationResult := Some result;
                st_bankInfo := None;
                st_isSubmitted := true;
                st_storedHistory := st_storedHistory st |}
  end.

End Component.


(** ** Unicode data for concrete inputs

    The rows of the Unicode Character Database for the Latin-1 Supplement
    (UnicodeData.txt: U+00B5, U+00E0..U+00FE but U+00F7, U+00FF;
    SpecialCasing.txt: [00DF; 00DF; 0053 0073; 0053 0053]), and for the
    code points of the other blocks whose upper-case mapping holds a Basic
    Latin letter (U+0131, U+0149, U+017F, U+01F0, U+1E96..U+1E9A,
    U+FB00..U+FB06).  A code point outside these rows is returned as it
    is, so this table serves to evaluate inputs drawn from the rows it
    has; the general results below hold for every table. *)
Definition ucdExcerpt : UnicodeData := fun cp =>
  if cp =? 181 then [924]                         (* MICRO SIGN *)
  else if cp =? 223 then [83; 83]                 (* SHARP S -> SS *)
  else if inRange 224 254 cp && negb (cp =? 247) then [cp - 32]
  else if cp =? 255 then [376]
  else if cp =? 305 then [73]                     (* DOTLESS I -> I *)
  else if cp =? 329 then [700; 78]
  else if cp =? 383 then [83]                     (* LONG S -> S *)
  else if cp =? 496 then [74; 780]
  else if cp =? 7830 then [72; 817]
  else if cp =? 7831 then [84; 776]
  else if cp =? 7832 then [87; 778]
  else if cp =? 7833 then [89; 778]
  else if cp =? 7834 then [65; 702]
  else if cp =? 64256 then [70; 70]               (* ligatures ff .. st *)
  else if cp =? 64257 then [70; 73]
  else if cp =? 64258 then [70; 76]
  else if cp =? 64259 then [70; 70; 73]
  else if cp =? 64260 then [70; 70; 76]
  else if cp =? 64261 then [83; 84]
  else if cp =? 64262 then [83; 84]
  else [cp].

(** The component after the German example has been typed into its
    first render with an empty store, and after the submit that follows. *)
Definition enteredState : ValidatorState :=
  {| st_iban := js "DE89370400440532013000";
     st_formattedIban := js "DE89 3704 0044 0532 0130 00";
     st_validationResult := None;
     st_bankInfo := None;
     st_isSubmitted := false;
     st_storedHistory := None |}.

Definition submittedState : ValidatorState :=
  {| st_iban := js "DE89370400440532013000";
     st_formattedIban := js "DE89 3704 0044 0532 0130 00";
     st_validationResult :=
       Some {| isValid := true; message := "Valid IBAN" |};
     st_bankInfo :=
       Some {| info_isValid := true;
               countryCode := js "DE";
               bankCode := js "37040044";
               branchCode := [];
               accountNumber := js "0532013000";
               info_message :=
                 "Successfully extracted bank account information" |};
     st_isSubmitted := true;
     st_storedHistory := Some [js "DE89 3704 0044 0532 0130 00"] |}.

(** ** The vocabulary of the specification *)

(** A NormalizedIban: only characters of [[A-Z0-9]]. *)
Definition isNormalized (s : jsstring) : bool := forallb isUpperOrDigit s.

(** Checksum, step 1: [s[4:] + s[0:4]]. *)
Definition spec_rearrange (s : jsstring) : jsstring :=
  skipn 4 s ++ firstn 4 s.

(** Checksum, step 2: a letter becomes the two decimal digits of its code
    minus 55, a digit stays. *)
Definition spec_expand (s : jsstring) : jsstring :=
  flat_map (fun c =>
              if isUpper c
              then [48 + (c - 55) / 10; 48 + (c - 55) mod 10]
              else [c]) s.

(** The integer a string of decimal digits denotes. *)
Definition decimalValue (digits : jsstring) : Z :=
  fold_left (fun acc c => (acc * 10 + (Z.of_N c - 48))%Z) digits 0%Z.

(** Checksum, step 3 in its iterative form: [(carry*10 + digit) % 97]
    digit by digit. *)
Definition mod97_iter (digits : jsstring) : Z :=
  fold_left (fun carry c => ((carry * 10 + (Z.of_N c - 48)) mod 97)%Z)
            digits 0%Z.

(** Checksum, step 4: the numeral of a normalized text leaves 1 modulo 97. *)
Definition checksumValid (s : jsstring) : bool :=
  (decimalValue (spec_expand (spec_rearrange s)) mod 97 =? 1)%Z.

(** What [validateIban] asks of its [cleanedIban]: the format, the length
    bounds, the checksum. *)
Definition acceptsCleaned (c : jsstring) : bool :=
  testIbanFormat c && (15 <=? length c)%nat && (length c <=? 34)%nat
  && checksumValid c.

(** The number a normalized character stands for in the numeral (a digit
    for itself, a letter for its code minus 55) and the power of ten its
    digits take up. *)
Definition charValue (c : N) : Z :=
  if isUpper c then (Z.of_N c - 55)%Z else (Z.of_N c - 48)%Z.

Definition charWeight (c : N) : Z := if isUpper c then 100%Z else 10%Z.

(** The numeral of a normalized text read character by character, from a
    start value. *)
Definition numeralFrom (r : jsstring) (start : Z) : Z :=
  fold_left (fun acc c => (acc * charWeight c + charValue c)%Z) r start.

(** The power of ten by which a text shifts what stands before it. *)
Definition weightProduct (r : jsstring) : Z :=
  fold_right (fun c p => (charWeight c * p)%Z) 1%Z r.

(** The IBAN length the [switch] of [extractBankAccountInfo] expects for
    the country codes it has a case for. *)
Definition expectedLength (country : jsstring) : option Z :=
  if jsstring_eqb country (js "DE") then Some 22%Z
  else if jsstring_eqb country (js "FR") then Some 27%Z
  else if jsstring_eqb country (js "GB") then Some 22%Z
  else None.

(** The six results of [getValidationMessage], under the names the
    specification gives the outcomes.  [BadFormat] is the message about
    the country code; [InvalidIban] is the generic message, which stands
    for a failed checksum and also for a format or a length that
    [validateIban] refuses behind the first two letters. *)
Definition Valid : ValidationResult :=
  {| isValid := true; message := "Valid IBAN" |}.
Definition Empty : ValidationResult :=
  {| isValid := false; message := "Please enter an IBAN" |}.
Definition TooShort : ValidationResult :=
  {| isValid := false; message := "IBAN is too short" |}.
Definition TooLong : ValidationResult :=
  {| isValid := false; message := "IBAN is too long" |}.
Definition BadFormat : ValidationResult :=
  {| isValid := false;
     message := "IBAN must start with a country code (2 letters)" |}.
Definition InvalidIban : ValidationResult :=
  {| isValid := false; message := "Invalid IBAN." |}.

(** * Properties *)

(** ** Character classes *)

Ltac bool_to_prop :=
  repeat (rewrite ?orb_true_iff, ?andb_true_iff, ?orb_false_iff,
            ?andb_false_iff, ?negb_true_iff, ?negb_false_iff,
            ?N.leb_le, ?N.leb_gt, ?N.ltb_lt, ?N.ltb_ge,
            ?N.eqb_eq, ?N.eqb_neq in *).

Ltac char_classes :=
  unfold isUpperOrDigit, isAlnum, isDigit, isUpper, isLower, isAscii,
    isWhiteSpace, isLead, isTrail, isDot, inRange in *;
  bool_to_prop; try lia.

Lemma isUpperOrDigit_isAscii c : isUpperOrDigit c = true -> isAscii c = true.
Proof. char_classes. Qed.

Lemma isUpperOrDigit_not_space c :
  isUpperOrDigit c = true -> isWhiteSpace c = false.
Proof. char_classes. Qed.

Lemma isDigit_not_space c : isDigit c = true -> isWhiteSpace c = false.
Proof. char_classes. Qed.

Lemma asciiUpper_fixed c : isLower c = false -> asciiUpper c = c.
Proof. unfold asciiUpper. now intros ->. Qed.

Lemma isUpperOrDigit_not_lower c :
  isUpperOrDigit c = true -> isLower c = false.
Proof. char_classes. Qed.

Lemma asciiUpper_isAscii c : isAscii c = true -> isAscii (asciiUpper c) = true.
Proof.
  unfold asciiUpper. destruct (isLower c) eqn:E; [|easy]. char_classes.
Qed.

Lemma asciiUpper_not_lower c : isLower (asciiUpper c) = false.
Proof.
  unfold asciiUpper. destruct (isLower c) eqn:E; [|easy]. char_classes.
Qed.

Lemma asciiUpper_space c : isWhiteSpace (asciiUpper c) = isWhiteSpace c.
Proof.
  unfold asciiUpper. destruct (isLower c) eqn:E; [|easy].
  assert (isWhiteSpace c = false) as -> by char_classes.
  char_classes.
Qed.

Lemma isAscii_not_lead c : isAscii c = true -> isLead c = false.
Proof. char_classes. Qed.

(** ** Lists of code units *)

Lemma filter_id {A} (f : A -> bool) l : forallb f l = true -> filter f l = l.
Proof.
  induction l as [|a l IH]; simpl; [easy|].
  rewrite andb_true_iff. intros [-> Hl]. now rewrite IH.
Qed.

Lemma forallb_impl {A} (f g : A -> bool) l :
  (forall a, f a = true -> g a = true) ->
  forallb f l = true -> forallb g l = true.
Proof.
  intros Hfg. rewrite !forallb_forall. auto.
Qed.

Lemma forallb_rev {A} (f : A -> bool) l :
  forallb f (rev l) = forallb f l.
Proof.
  induction l as [|a l IH]; simpl; [easy|].
  rewrite forallb_app, IH. simpl. rewrite andb_true_r. apply andb_comm.
Qed.

Lemma removeWhitespace_idem s :
  removeWhitespace (removeWhitespace s) = removeWhitespace s.
Proof.
  unfold removeWhitespace. apply filter_id, forallb_forall.
  intros c Hc. now apply filter_In in Hc.
Qed.

Lemma removeWhitespace_none s :
  forallb (fun c => negb (isWhiteSpace c)) s = true -> removeWhitespace s = s.
Proof. apply filter_id. Qed.

Lemma trimStart_none s :
  forallb (fun c => negb (isWhiteSpace c)) s = true -> trimStart s = s.
Proof.
  destruct s as [|c t]; simpl; [easy|].
  rewrite andb_true_iff, negb_true_iff. now intros [-> _].
Qed.

Lemma trim_none s :
  forallb (fun c => negb (isWhiteSpace c)) s = true -> trim s = s.
Proof.
  intros H. unfold trim. rewrite (trimStart_none s H).
  rewrite trimStart_none by now rewrite forallb_rev.
  apply rev_involutive.
Qed.

Lemma slice_from s a :
  (0 <= a)%Z -> slice s a None = skipn (Z.to_nat a) s.
Proof.
  intros Ha. unfold slice, clampIndex, jslength.
  destruct (Z.ltb_spec a 0); [lia|].
  destruct (Z.le_gt_cases a (Z.of_nat (length s))) as [Hle|Hgt].
  - rewrite Z.min_l by lia. apply firstn_all2. rewrite length_skipn. lia.
  - rewrite Z.min_r by lia. rewrite !skipn_all2 by lia. now rewrite firstn_nil.
Qed.

Lemma slice_span s a b :
  (0 <= a <= b)%Z ->
  slice s a (Some b) = firstn (Z.to_nat (b - a)) (skipn (Z.to_nat a) s).
Proof.
  intros Hab. unfold slice, clampIndex, jslength.
  destruct (Z.ltb_spec a 0); [lia|]. destruct (Z.ltb_spec b 0); [lia|].
  set (len := Z.of_nat (length s)).
  destruct (Z.le_gt_cases a len) as [Ha|Ha].
  - rewrite (Z.min_l a) by lia.
    destruct (Z.le_gt_cases b len) as [Hb|Hb].
    + rewrite Z.min_l by lia. now rewrite Z.max_l by lia.
    + rewrite Z.min_r by lia.
      rewrite !firstn_all2; [easy| |]; rewrite length_skipn; lia.
  - rewrite !Z.min_r by lia. rewrite !skipn_all2 by lia.
    now rewrite !firstn_nil.
Qed.

(** ** Case conversion on Basic Latin *)

Section CaseConversion.

Context {UCD : UnicodeData}.

Lemma codePoints_ascii s : forallb isAscii s = true -> codePoints s = s.
Proof.
  induction s as [|hi t IH]; [easy|].
  intros H. apply andb_true_iff in H as [Hhi Ht].
  change (codePoints (hi :: t)) with
    (match t with
     | lo :: rest =>
         if isLead hi && isTrail lo
         then ((hi - 55296) * 1024 + (lo - 56320) + 65536) :: codePoints rest
         else hi :: codePoints t
     | [] => [hi]
     end).
  rewrite (isAscii_not_lead hi Hhi).
  destruct t as [|lo rest]; [easy|].
  cbn [andb]. now rewrite IH.
Qed.

Lemma toUpperCase_ascii s :
  forallb isAscii s = true -> toUpperCase s = map asciiUpper s.
Proof.
  intros H. unfold toUpperCase. rewrite (codePoints_ascii s H).
  induction s as [|c t IH]; [easy|].
  apply andb_true_iff in H as [Hc Ht].
  cbn [flat_map map]. unfold upperCodePoint at 1. rewrite Hc.
  cbn [app flat_map]. rewrite (IH Ht).
  assert ((asciiUpper c <? 65536) = true) as E.
  { pose proof (asciiUpper_isAscii c Hc). char_classes. }
  unfold codeUnits at 1. now rewrite E.
Qed.

Lemma toUpperCase_normalized s :
  isNormalized s = true -> toUpperCase s = s.
Proof.
  intros H. rewrite toUpperCase_ascii.
  - unfold isNormalized in H. induction s as [|c t IH]; [easy|].
    apply andb_true_iff in H as [Hc Ht]. cbn [map].
    rewrite (IH Ht), asciiUpper_fixed; [easy|].
    now apply isUpperOrDigit_not_lower.
  - revert H. apply forallb_impl, isUpperOrDigit_isAscii.
Qed.

Lemma toUpperCase_ascii_length s :
  forallb isAscii s = true -> length (toUpperCase s) = length s.
Proof. intros H. rewrite toUpperCase_ascii by easy. apply length_map. Qed.

Lemma toUpperCase_ascii_idem s :
  forallb isAscii s = true -> toUpperCase (toUpperCase s) = toUpperCase s.
Proof.
  intros H. rewrite (toUpperCase_ascii s H). rewrite toUpperCase_ascii.
  - rewrite map_map. apply map_ext. intros c.
    apply asciiUpper_fixed, asciiUpper_not_lower.
  - rewrite forallb_forall in *. intros c Hc.
    apply in_map_iff in Hc as (c0 & <- & Hc0). auto using asciiUpper_isAscii.
Qed.

Lemma toUpperCase_ascii_no_space s :
  forallb isAscii s = true ->
  forallb (fun c => negb (isWhiteSpace c)) s = true ->
  forallb (fun c => negb (isWhiteSpace c)) (toUpperCase s) = true.
Proof.
  intros H Hs. rewrite (toUpperCase_ascii s H).
  rewrite forallb_forall in *. intros c Hc.
  apply in_map_iff in Hc as (c0 & <- & Hc0).
  rewrite asciiUpper_space. auto.
Qed.

End CaseConversion.

Lemma isNormalized_no_space s :
  isNormalized s = true ->
  forallb (fun c => negb (isWhiteSpace c)) s = true.
Proof.
  apply forallb_impl. intros c Hc.
  now rewrite (isUpperOrDigit_not_space c Hc).
Qed.

(** ** Decimal numerals *)

Lemma upper_letter_cases (P : N -> Prop) :
  (forall k : nat, (k < 26)%nat -> P (65 + N.of_nat k)) ->
  forall c, isUpper c = true -> P c.
Proof.
  intros HP c Hc.
  replace c with (65 + N.of_nat (N.to_nat (c - 65))).
  - apply HP. char_classes.
  - char_classes.
Qed.

Lemma numberToString_letter c :
  isUpper c = true ->
  numberToString (c - 55) = [48 + (c - 55) / 10; 48 + (c - 55) mod 10].
Proof.
  revert c. apply upper_letter_cases. intros k Hk.
  do 26 (destruct k as [|k]; [reflexivity|]). lia.
Qed.

Lemma expandChar_spec c :
  expandChar c = if isUpper c
                 then [48 + (c - 55) / 10; 48 + (c - 55) mod 10]
                 else [c].
Proof.
  unfold expandChar. change ((65 <=? c) && (c <=? 90)) with (isUpper c).
  destruct (isUpper c) eqn:E; [|easy]. now apply numberToString_letter.
Qed.

Lemma flat_map_expandChar s : flat_map expandChar s = spec_expand s.
Proof.
  unfold spec_expand. apply flat_map_ext. intros c. apply expandChar_spec.
Qed.

Lemma letter_digits c :
  isUpper c = true ->
  forallb isDigit [48 + (c - 55) / 10; 48 + (c - 55) mod 10] = true.
Proof.
  revert c. apply upper_letter_cases. intros k Hk.
  do 26 (destruct k as [|k]; [reflexivity|]). lia.
Qed.

Lemma spec_expand_digits s :
  isNormalized s = true -> forallb isDigit (spec_expand s) = true.
Proof.
  unfold isNormalized, spec_expand.
  induction s as [|c t IH]; [easy|]. cbn [forallb flat_map].
  rewrite andb_true_iff. intros [Hc Ht].
  rewrite forallb_app, (IH Ht), andb_true_r.
  destruct (isUpper c) eqn:E.
  - now apply letter_digits.
  - cbn. rewrite andb_true_r. unfold isUpperOrDigit in Hc.
    now rewrite E, orb_false_r in Hc.
Qed.

Lemma spec_expand_nonempty s : s <> [] -> spec_expand s <> [].
Proof.
  destruct s as [|c t]; [easy|]. intros _. unfold spec_expand.
  cbn [flat_map]. now destruct (isUpper c).
Qed.

Lemma digitValue_decimal c :
  isDigit c = true -> digitValue 10 c = Some (c - 48).
Proof.
  intros H. unfold digitValue. rewrite H.
  assert ((c - 48 <? 10) = true) as -> by char_classes. easy.
Qed.

Lemma parseDigits_decimal s acc :
  forallb isDigit s = true ->
  option_map Z.of_N (parseDigits 10 acc s)
  = Some (fold_left (fun a c => (a * 10 + (Z.of_N c - 48))%Z) s (Z.of_N acc)).
Proof.
  revert acc. induction s as [|c t IH]; intros acc; [easy|].
  cbn [forallb parseDigits fold_left]. rewrite andb_true_iff. intros [Hc Ht].
  rewrite (digitValue_decimal c Hc), (IH _ Ht). do 2 f_equal.
  assert (48 <= c) by char_classes. lia.
Qed.

Lemma decimalValue_nonneg_from s a :
  forallb isDigit s = true -> (0 <= a)%Z ->
  (0 <= fold_left (fun a c => (a * 10 + (Z.of_N c - 48))%Z) s a)%Z.
Proof.
  revert a. induction s as [|c t IH]; intros a; [easy|].
  cbn [forallb fold_left]. rewrite andb_true_iff. intros [Hc Ht] Ha.
  apply IH; [easy|]. assert (48 <= c) by char_classes. lia.
Qed.

Lemma decimalValue_nonneg s :
  forallb isDigit s = true -> (0 <= decimalValue s)%Z.
Proof. intros H. now apply decimalValue_nonneg_from. Qed.

Lemma parseNumeral_decimal s :
  forallb isDigit s = true -> s <> [] ->
  parseNumeral 10 s = Some (decimalValue s).
Proof.
  intros H Hne. destruct s as [|c t]; [easy|].
  unfold parseNumeral. now rewrite (parseDigits_decimal _ 0 H).
Qed.

Lemma digit_cases (P : N -> Prop) :
  (forall k : nat, (k < 10)%nat -> P (48 + N.of_nat k)) ->
  forall c, isDigit c = true -> P c.
Proof.
  intros HP c Hc.
  replace c with (48 + N.of_nat (N.to_nat (c - 48))).
  - apply HP. char_classes.
  - char_classes.
Qed.

Lemma BigInt_unsigned_decimal s :
  forallb isDigit s = true -> BigInt s = match s with
                                         | [] => Some 0%Z
                                         | _ :: _ => parseNumeral 10 s
                                         end.
Proof.
  intros H. unfold BigInt.
  rewrite trim_none by (revert H; apply forallb_impl; intros c Hc;
                        now rewrite (isDigit_not_space c Hc)).
  destruct s as [|c t]; [easy|].
  apply andb_true_iff in H as [Hc Ht]. revert c Hc.
  apply digit_cases. intros k Hk.
  destruct k as [|k].
  - change (48 + N.of_nat 0) with 48.
    destruct t as [|x t']; [reflexivity|].
    apply andb_true_iff in Ht as [Hx _].
    assert ((x =? 120) = false) as -> by char_classes.
    assert ((x =? 88) = false) as -> by char_classes.
    assert ((x =? 111) = false) as -> by char_classes.
    assert ((x =? 79) = false) as -> by char_classes.
    assert ((x =? 98) = false) as -> by char_classes.
    assert ((x =? 66) = false) as -> by char_classes.
    reflexivity.
  - do 9 (destruct k as [|k]; [reflexivity|]). lia.
Qed.

(** On a non-empty string of decimal digits [BigInt] does not throw and
    gives the number the digits denote. *)
Lemma BigInt_digits s :
  forallb isDigit s = true -> s <> [] -> BigInt s = Some (decimalValue s).
Proof.
  intros H Hne. rewrite (BigInt_unsigned_decimal s H).
  destruct s as [|c t]; [easy|]. now apply parseNumeral_decimal.
Qed.

(** The iterative reduction of the specification gives the remainder of
    the whole numeral. *)
Lemma mod97_iter_from s a :
  (fold_left (fun carry c => ((carry * 10 + (Z.of_N c - 48)) mod 97)%Z) s
             (a mod 97)
   = fold_left (fun acc c => (acc * 10 + (Z.of_N c - 48))%Z) s a mod 97)%Z.
Proof.
  revert a. induction s as [|c t IH]; intros a; cbn [fold_left].
  - reflexivity.
  - rewrite <- IH. f_equal.
    rewrite <- Z.add_mod_idemp_l, Z.mul_mod_idemp_l, Z.add_mod_idemp_l by lia.
    reflexivity.
Qed.

Lemma mod97_iter_correct s : mod97_iter s = (decimalValue s mod 97)%Z.
Proof. apply (mod97_iter_from s 0). Qed.

(** ** The format test and the rearrangement *)

Lemma testIbanFormat_normalized s :
  testIbanFormat s = true -> isNormalized s = true.
Proof.
  destruct s as [|a [|b rest]]; [easy..|].
  cbn [testIbanFormat isNormalized forallb].
  rewrite !andb_true_iff. intros [[[Ha Hb] _] Hrest]. repeat split; [| |easy].
  - unfold isUpperOrDigit. now rewrite Ha, orb_true_r.
  - unfold isUpperOrDigit. now rewrite Hb, orb_true_r.
Qed.

Lemma testIbanFormat_length s :
  testIbanFormat s = true -> (4 <= length s)%nat.
Proof.
  destruct s as [|a [|b rest]]; [easy..|]. cbn [testIbanFormat length].
  rewrite !andb_true_iff, Nat.leb_le. lia.
Qed.

Lemma testIbanFormat_prefix s :
  testIbanFormat s = true -> testCountryPrefix s = true.
Proof.
  destruct s as [|a [|b rest]]; [easy..|].
  cbn [testIbanFormat testCountryPrefix].
  rewrite !andb_true_iff. tauto.
Qed.

Lemma testIbanFormat_intro s :
  isNormalized s = true -> testCountryPrefix s = true -> (4 <= length s)%nat ->
  testIbanFormat s = true.
Proof.
  destruct s as [|a [|b rest]]; [easy..|].
  cbn [testIbanFormat testCountryPrefix isNormalized forallb length].
  rewrite !andb_true_iff, Nat.leb_le. intros (_ & _ & Hr) [Ha Hb] Hlen.
  repeat split; [easy|easy|lia|easy].
Qed.

Lemma numericOf_spec s :
  numericOf s = spec_expand (spec_rearrange s).
Proof.
  unfold numericOf, spec_rearrange.
  rewrite flat_map_expandChar, slice_from, (slice_span s 0 4) by lia.
  reflexivity.
Qed.

Lemma spec_rearrange_normalized s :
  isNormalized s = true -> isNormalized (spec_rearrange s) = true.
Proof.
  unfold isNormalized, spec_rearrange. intros H.
  rewrite forallb_app, andb_comm, <- forallb_app, firstn_skipn. exact H.
Qed.

Lemma spec_rearrange_nonempty s : s <> [] -> spec_rearrange s <> [].
Proof.
  intros Hs Hr. apply Hs, length_zero_iff_nil.
  apply (f_equal (@length N)) in Hr. unfold spec_rearrange in Hr.
  rewrite length_app, Nat.add_comm, <- length_app, firstn_skipn in Hr.
  exact Hr.
Qed.

(** Whenever the format test lets a cleaned text through, the text handed
    to [BigInt] is a non-empty string of decimal digits. *)
Lemma numericOf_digits s :
  testIbanFormat s = true ->
  forallb isDigit (numericOf s) = true /\ numericOf s <> [].
Proof.
  intros H. rewrite numericOf_spec. split.
  - now apply spec_expand_digits, spec_rearrange_normalized,
      testIbanFormat_normalized.
  - apply spec_expand_nonempty, spec_rearrange_nonempty.
    apply testIbanFormat_length in H. now destruct s.
Qed.

(** ** The checksum engine *)

Section Checksum.

Context {UCD : UnicodeData}.

(** [validateIban] in one equation: the [BigInt] conversion always
    succeeds, and the answer is the conjunction of the tests on the
    cleaned text. *)
Lemma validateIban_cleaned x :
  validateIban x
  = Some (negb (falsy x) && acceptsCleaned (toUpperCase (removeWhitespace x))).
Proof.
  unfold validateIban, acceptsCleaned, checksumValid.
  destruct (falsy x); [reflexivity|]. cbn [negb andb].
  set (c := toUpperCase (removeWhitespace x)).
  destruct (testIbanFormat c) eqn:Hfmt; [|reflexivity]. cbn [negb andb].
  unfold jslength.
  destruct (Nat.leb_spec 15 (length c)) as [H15|H15];
    destruct (Z.ltb_spec (Z.of_nat (length c)) 15); try lia; [|reflexivity].
  destruct (Nat.leb_spec (length c) 34) as [H34|H34];
    destruct (Z.ltb_spec 34 (Z.of_nat (length c))); try lia; [|reflexivity].
  cbn [orb andb].
  destruct (numericOf_digits c Hfmt) as [Hd Hne].
  rewrite (BigInt_digits _ Hd Hne), Z.rem_mod_nonneg;
    [|now apply decimalValue_nonneg|lia].
  now rewrite numericOf_spec.
Qed.

Lemma validateIban_total x : exists b, validateIban x = Some b.
Proof. rewrite validateIban_cleaned. eauto. Qed.

Lemma validateIban_normalized s :
  isNormalized s = true -> validateIban s = Some (acceptsCleaned s).
Proof.
  intros H. rewrite validateIban_cleaned.
  rewrite (removeWhitespace_none s (isNormalized_no_space s H)).
  rewrite (toUpperCase_normalized s H).
  destruct s; [reflexivity|reflexivity].
Qed.

(** C1. For a normalized text [s] (characters of [[A-Z0-9]] only) of 15 to
    34 characters that starts with two letters, [validateIban] returns
    [true] exactly when the decimal numeral read off [s[4:] + s[0:4]],
    each letter replaced by the two digits of its code minus 55, leaves
    remainder 1 modulo 97 in exact integer arithmetic, and returns [false]
    otherwise. *)
Theorem validateIban_mod97 (s : jsstring) :
  isNormalized s = true ->
  (15 <= length s <= 34)%nat ->
  testCountryPrefix s = true ->
  (validateIban s = Some true
   <-> (decimalValue (spec_expand (spec_rearrange s)) mod 97 = 1)%Z)
  /\ (validateIban s = Some false
      <-> (decimalValue (spec_expand (spec_rearrange s)) mod 97 <> 1)%Z).
Proof.
  intros Hn [H15 H34] Hp. rewrite (validateIban_normalized s Hn).
  unfold acceptsCleaned, checksumValid.
  rewrite (testIbanFormat_intro s Hn Hp) by lia.
  apply Nat.leb_le in H15, H34. rewrite H15, H34. cbn [andb].
  destruct (Z.eqb_spec (decimalValue (spec_expand (spec_rearrange s)) mod 97) 1);
    split; split; congruence.
Qed.

End Checksum.

(** ** The message-producing path *)

Section Messages.

Context {UCD : UnicodeData}.

Lemma falsy_long (s : jsstring) : (1 <= length s)%nat -> falsy s = false.
Proof. destruct s; cbn; [lia|easy]. Qed.

(** [getValidationMessage] in one equation: it never throws, and the
    outcome is the first rule that fires. *)
Lemma getValidationMessage_cases x :
  getValidationMessage x
  = Some (if falsy x then Empty
          else if (length (removeWhitespace x) <? 15)%nat then TooShort
          else if (34 <? length (removeWhitespace x))%nat then TooLong
          else if testCountryPrefix (toUpperCase (removeWhitespace x))
               then if acceptsCleaned (toUpperCase (removeWhitespace x))
                    then Valid else InvalidIban
               else BadFormat).
Proof.
  unfold getValidationMessage. destruct (falsy x); [reflexivity|].
  cbv zeta. set (w := removeWhitespace x). unfold jslength.
  destruct (Nat.ltb_spec (length w) 15);
    destruct (Z.ltb_spec (Z.of_nat (length w)) 15); try lia; [reflexivity|].
  destruct (Nat.ltb_spec 34 (length w));
    destruct (Z.ltb_spec 34 (Z.of_nat (length w))); try lia; [reflexivity|].
  destruct (testCountryPrefix (toUpperCase w)); [|reflexivity]. cbn [negb].
  rewrite validateIban_cleaned. unfold w at 2.
  rewrite removeWhitespace_idem. fold w.
  rewrite falsy_long by lia. cbn [negb andb].
  now destruct (acceptsCleaned (toUpperCase w)).
Qed.

Lemma getValidationMessage_total x : exists r, getValidationMessage x = Some r.
Proof. rewrite getValidationMessage_cases. eauto. Qed.

(** C2. The three canonical examples are reported [Valid]. *)
Theorem canonical_examples_valid :
  getValidationMessage (js "DE89370400440532013000") = Some Valid
  /\ getValidationMessage (js "FR1420041010050500013M02606") = Some Valid
  /\ getValidationMessage (js "GB29NWBK60161331926819") = Some Valid.
Proof. repeat split; vm_compute; reflexivity. Qed.

(** C4, as the code has it.  The outcome is the first rule that fires, in
    this order, on the raw input with its white space removed ([w]): the
    raw input itself is empty: [Empty]; [w] is shorter than 15:
    [TooShort]; [w] is longer than 34: [TooLong]; [w] in upper case does
    not start with two letters: [BadFormat]; it does, and the rest of the
    format, the length in upper case or the checksum fails: the generic
    [InvalidIban]; otherwise [Valid].  So a non-empty input made of white
    space only is [TooShort], and a failure of the full pattern behind the
    first two letters is not [BadFormat]. *)
Theorem message_precedence (x : jsstring) :
  let w := removeWhitespace x in
  (x = [] -> getValidationMessage x = Some Empty)
  /\ (x <> [] -> (length w < 15)%nat -> getValidationMessage x = Some TooShort)
  /\ ((34 < length w)%nat -> getValidationMessage x = Some TooLong)
  /\ ((15 <= length w <= 34)%nat ->
      testCountryPrefix (toUpperCase w) = false ->
      getValidationMessage x = Some BadFormat)
  /\ ((15 <= length w <= 34)%nat ->
      testCountryPrefix (toUpperCase w) = true ->
      getValidationMessage x
      = Some (if acceptsCleaned (toUpperCase w) then Valid else InvalidIban))
  /\ ((15 <= length w <= 34)%nat ->
      testCountryPrefix (toUpperCase w) = true ->
      testIbanFormat (toUpperCase w) = false ->
      getValidationMessage x = Some InvalidIban)
  /\ (x <> [] -> w = [] -> getValidationMessage x = Some TooShort).
Proof.
  intros w. rewrite getValidationMessage_cases. fold w.
  assert (Hx : (1 <= length w)%nat -> falsy x = false).
  { intros Hw. destruct x; [cbn in Hw; lia|reflexivity]. }
  repeat split.
  - now intros ->.
  - intros Hne Hlt. destruct x; [easy|]. cbn [falsy].
    now apply Nat.ltb_lt in Hlt as ->.
  - intros Hgt. rewrite Hx by lia.
    destruct (Nat.ltb_spec (length w) 15); [lia|].
    now apply Nat.ltb_lt in Hgt as ->.
  - intros [H15 H34] Hp. rewrite Hx, Hp by lia.
    destruct (Nat.ltb_spec (length w) 15); [lia|].
    destruct (Nat.ltb_spec 34 (length w)); [lia|reflexivity].
  - intros [H15 H34] Hp. rewrite Hx, Hp by lia.
    destruct (Nat.ltb_spec (length w) 15); [lia|].
    destruct (Nat.ltb_spec 34 (length w)); [lia|reflexivity].
  - intros [H15 H34] Hp Hf. rewrite Hx, Hp by lia.
    destruct (Nat.ltb_spec (length w) 15); [lia|].
    destruct (Nat.ltb_spec 34 (length w)); [lia|].
    unfold acceptsCleaned. now rewrite Hf.
  - intros Hne Hw. destruct x; [easy|]. cbn [falsy]. now rewrite Hw.
Qed.

(** C3, as the code has it.  Only white space is removed: for an input
    that is empty or holds a character that is not white space,
    [getValidationMessage] gives the same outcome as on the input without
    its white space; the validity flag is the same for every input; and
    for such an input of Basic Latin characters the outcome is also that
    of the input without its white space and in upper case.  (Other
    characters that are not letters or digits stay in the text.) *)
Theorem message_whitespace_invariant (x : jsstring) :
  (x = [] \/ removeWhitespace x <> [] ->
   getValidationMessage x = getValidationMessage (removeWhitespace x))
  /\ option_map isValid (getValidationMessage x)
     = option_map isValid (getValidationMessage (removeWhitespace x))
  /\ (forallb isAscii x = true -> removeWhitespace x <> [] ->
      getValidationMessage x
      = getValidationMessage (toUpperCase (removeWhitespace x))).
Proof.
  rewrite !getValidationMessage_cases, !removeWhitespace_idem.
  set (w := removeWhitespace x).
  assert (Hfx : w <> [] -> falsy x = false).
  { intros Hw. destruct x; [now destruct Hw|reflexivity]. }
  repeat split.
  - intros [->|Hw]; [reflexivity|].
    rewrite (Hfx Hw). now destruct w.
  - destruct x as [|a x']; [reflexivity|]. cbn [falsy].
    destruct w as [|b w']; [reflexivity|reflexivity].
  - intros Ha Hw.
    assert (Haw : forallb isAscii w = true).
    { rewrite forallb_forall in *. intros c Hc.
      apply filter_In in Hc. now apply Ha. }
    assert (Hnw : forallb (fun c => negb (isWhiteSpace c)) w = true).
    { apply forallb_forall. intros c Hc. now apply filter_In in Hc. }
    rewrite (removeWhitespace_none _ (toUpperCase_ascii_no_space w Haw Hnw)).
    rewrite (toUpperCase_ascii_idem w Haw), (toUpperCase_ascii_length w Haw).
    rewrite (Hfx Hw).
    assert (falsy (toUpperCase w) = false) as ->.
    { apply falsy_long. rewrite (toUpperCase_ascii_length w Haw).
      destruct w; [easy|cbn; lia]. }
    reflexivity.
Qed.

(** X20. The two paths agree on every input of Basic Latin characters:
    the flag [isValid] of [getValidationMessage] is the verdict of
    [validateIban]. *)
Lemma validity_paths_agree_ascii x :
  forallb isAscii x = true ->
  option_map isValid (getValidationMessage x) = validateIban x.
Proof.
  intros Ha. rewrite getValidationMessage_cases, validateIban_cleaned.
  destruct x as [|a x']; [reflexivity|]. cbn [falsy negb andb option_map].
  set (w := removeWhitespace (a :: x')).
  assert (Haw : forallb isAscii w = true).
  { rewrite forallb_forall in *. intros c Hc.
    apply filter_In in Hc. now apply Ha. }
  unfold acceptsCleaned. rewrite (toUpperCase_ascii_length w Haw).
  f_equal.
  destruct (Nat.ltb_spec (length w) 15) as [H|H].
  - destruct (Nat.leb_spec 15 (length w)); [lia|].
    now rewrite andb_false_r.
  - destruct (Nat.ltb_spec 34 (length w)) as [H'|H'].
    + destruct (Nat.leb_spec (length w) 34); [lia|].
      now rewrite !andb_false_r.
    + destruct (testCountryPrefix (toUpperCase w)) eqn:Hp.
      * now destruct (testIbanFormat (toUpperCase w) && _ && _ && _).
      * destruct (testIbanFormat (toUpperCase w)) eqn:Hf; [|reflexivity].
        apply testIbanFormat_prefix in Hf. congruence.
Qed.

(** X21. On every input, an outcome [Valid] means [validateIban]
    accepts. *)
Lemma message_valid_implies_validateIban x :
  option_map isValid (getValidationMessage x) = Some true ->
  validateIban x = Some true.
Proof.
  rewrite getValidationMessage_cases, validateIban_cleaned.
  destruct x as [|a x']; [easy|]. cbn [falsy negb andb option_map].
  set (w := removeWhitespace (a :: x')).
  destruct (length w <? 15)%nat; [easy|].
  destruct (34 <? length w)%nat; [easy|].
  destruct (testCountryPrefix (toUpperCase w)); [|easy].
  now destruct (acceptsCleaned (toUpperCase w)).
Qed.

End Messages.

(** ** Country code and decomposition *)

Section Decomposition.

Context {UCD : UnicodeData}.

Lemma getCountryFromIban_cases (x : jsstring) :
  getCountryFromIban x
  = if (length x <? 2)%nat then [] else firstn 2 (toUpperCase (trim x)).
Proof.
  unfold getCountryFromIban, jslength.
  destruct (Nat.ltb_spec (length x) 2) as [H|H].
  - destruct (Z.ltb_spec (Z.of_nat (length x)) 2); [|lia].
    now rewrite orb_true_r.
  - destruct (Z.ltb_spec (Z.of_nat (length x)) 2); [lia|].
    rewrite falsy_long by lia. cbn [orb].
    now rewrite slice_span by lia.
Qed.

(** C8. [getCountryFromIban] returns the empty string on an input of
    fewer than two code units, and otherwise the first two code units (or
    fewer, if no more are left) of the trimmed input in upper case,
    whatever these are: nothing is validated, so digits and punctuation
    come back as a country code. *)
Theorem getCountryFromIban_prefix (x : jsstring) :
  ((length x < 2)%nat -> getCountryFromIban x = [])
  /\ ((2 <= length x)%nat ->
      getCountryFromIban x = firstn 2 (toUpperCase (trim x)))
  /\ getCountryFromIban (js " 1!x ") = js "1!".
Proof.
  rewrite getCountryFromIban_cases. repeat split.
  - intros H. now apply Nat.ltb_lt in H as ->.
  - intros H. now apply Nat.ltb_ge in H as ->.
Qed.

Lemma getCountryFromIban_normalized s :
  isNormalized s = true -> (2 <= length s)%nat ->
  getCountryFromIban s = firstn 2 s.
Proof.
  intros Hn Hl. rewrite getCountryFromIban_cases.
  destruct (Nat.ltb_spec (length s) 2); [lia|].
  now rewrite (trim_none s (isNormalized_no_space s Hn)),
    (toUpperCase_normalized s Hn).
Qed.

Lemma acceptsCleaned_nil : acceptsCleaned [] = false.
Proof. reflexivity. Qed.

(** For Basic Latin input, cleaning first does not change the verdict. *)
Lemma validateIban_cleaned_ascii x :
  forallb isAscii x = true ->
  validateIban (toUpperCase (removeWhitespace x)) = validateIban x.
Proof.
  intros Ha. set (w := removeWhitespace x).
  assert (Haw : forallb isAscii w = true).
  { rewrite forallb_forall in *. intros c Hc.
    apply filter_In in Hc. now apply Ha. }
  assert (Hnw : forallb (fun c => negb (isWhiteSpace c)) w = true).
  { apply forallb_forall. intros c Hc. now apply filter_In in Hc. }
  rewrite (validateIban_cleaned x), (validateIban_cleaned (toUpperCase w)).
  fold w.
  rewrite (removeWhitespace_none _ (toUpperCase_ascii_no_space w Haw Hnw)).
  rewrite (toUpperCase_ascii_idem w Haw).
  destruct (toUpperCase w) as [|a c] eqn:Hc.
  - now rewrite acceptsCleaned_nil, !andb_false_r.
  - cbn [falsy negb andb]. destruct x as [|b x']; [|reflexivity].
    rewrite toUpperCase_ascii in Hc by easy. discriminate Hc.
Qed.

(** C5, as the code has it.  When [validateIban] rejects the cleaned
    input, [extractBankAccountInfo] reports [isValid = false] with
    [bankCode], [branchCode] and [accountNumber] empty; [countryCode] is
    not emptied: it is [getCountryFromIban] of the cleaned input.  For
    Basic Latin input the cleaned input is rejected exactly when the
    input is, and the country code is the first two code units of the
    cleaned input as soon as it has two. *)
Theorem extractBankAccountInfo_invalid (x : jsstring) :
  (validateIban (toUpperCase (removeWhitespace x)) = Some false ->
   extractBankAccountInfo x
   = Some {| info_isValid := false;
             countryCode :=
               getCountryFromIban (toUpperCase (removeWhitespace x));
             bankCode := [];
             branchCode := [];
             accountNumber := [];
             info_message :=
               "Invalid IBAN. Cannot extract account information." |})
  /\ (forallb isAscii x = true -> validateIban x = Some false ->
      extractBankAccountInfo x
      = Some {| info_isValid := false;
                countryCode :=
                  if (length (removeWhitespace x) <? 2)%nat then []
                  else firstn 2 (toUpperCase (removeWhitespace x));
                bankCode := [];
                branchCode := [];
                accountNumber := [];
                info_message :=
                  "Invalid IBAN. Cannot extract account information." |}).
Proof.
  split.
  - intros H. unfold extractBankAccountInfo. now rewrite H.
  - intros Ha H. unfold extractBankAccountInfo.
    rewrite (validateIban_cleaned_ascii x Ha), H.
    set (w := removeWhitespace x).
    assert (Haw : forallb isAscii w = true).
    { rewrite forallb_forall in *. intros c Hc.
      apply filter_In in Hc. now apply Ha. }
    assert (Hnw : forallb (fun c => negb (isWhiteSpace c)) w = true).
    { apply forallb_forall. intros c Hc. now apply filter_In in Hc. }
    rewrite getCountryFromIban_cases, (toUpperCase_ascii_length w Haw).
    rewrite (trim_none _ (toUpperCase_ascii_no_space w Haw Hnw)).
    now rewrite (toUpperCase_ascii_idem w Haw).
Qed.

Lemma slice_4_8_nonempty s : (15 <= length s)%nat -> slice s 4 (Some 8%Z) <> [].
Proof.
  intros H E. apply (f_equal (@length N)) in E.
  rewrite slice_span, length_firstn, length_skipn in E by lia.
  cbn in E. lia.
Qed.

Lemma slice_8_nonempty s : (15 <= length s)%nat -> slice s 8 None <> [].
Proof.
  intros H E. apply (f_equal (@length N)) in E.
  rewrite slice_from, length_skipn in E by lia. cbn in E. lia.
Qed.

Ltac known_country E :=
  eexists; split; [reflexivity|];
  cbn [info_isValid countryCode bankCode branchCode accountNumber
       info_message falsy];
  split; [reflexivity|]; split; [reflexivity|]; split; [discriminate|];
  let n := fresh "n" in let Hlen := fresh "Hlen" in
  intros n [= <-] Hlen; first [congruence | now repeat split].

(** C6, as the code has it.  For a normalized text [s] that
    [validateIban] accepts, [extractBankAccountInfo] does not throw and
    reports [isValid = true] with the first two characters as country
    code.  If the country code has no case in the [switch] it takes the
    generic layout [bankCode = s[4:8]], [branchCode = ""],
    [accountNumber = s[8:]], both non-empty, and reports a successful
    extraction.  If the country code has a case and the length is not the
    one that case expects, nothing is sliced: the three fields are empty
    and the message is the partial one. *)
Theorem extractBankAccountInfo_fallback (s : jsstring) :
  isNormalized s = true ->
  validateIban s = Some true ->
  exists r,
    extractBankAccountInfo s = Some r
    /\ info_isValid r = true
    /\ countryCode r = firstn 2 s
    /\ (expectedLength (firstn 2 s) = None ->
        bankCode r = slice s 4 (Some 8%Z)
        /\ branchCode r = []
        /\ accountNumber r = slice s 8 None
        /\ bankCode r <> [] /\ accountNumber r <> []
        /\ info_message r
           = "Successfully extracted bank account information"%string)
    /\ (forall n, expectedLength (firstn 2 s) = Some n -> jslength s <> n ->
        bankCode r = [] /\ branchCode r = [] /\ accountNumber r = []
        /\ info_message r
           = "Partial information extracted due to unknown country format"%string).
Proof.
  intros Hn Hv. pose proof Hv as Hacc.
  rewrite (validateIban_normalized s Hn) in Hacc.
  injection Hacc as Hacc. unfold acceptsCleaned in Hacc.
  rewrite !andb_true_iff, !Nat.leb_le in Hacc.
  destruct Hacc as [[[_ H15] _] _].
  unfold extractBankAccountInfo.
  rewrite (removeWhitespace_none s (isNormalized_no_space s Hn)).
  rewrite (toUpperCase_normalized s Hn), Hv.
  rewrite getCountryFromIban_normalized by (easy || lia).
  unfold parseByCountry, expectedLength.
  destruct (jsstring_eqb (firstn 2 s) (js "DE")).
  { destruct (Z.eqb_spec (jslength s) 22) as [E|E]; known_country E. }
  destruct (jsstring_eqb (firstn 2 s) (js "FR")).
  { destruct (Z.eqb_spec (jslength s) 27) as [E|E]; known_country E. }
  destruct (jsstring_eqb (firstn 2 s) (js "GB")).
  { destruct (Z.eqb_spec (jslength s) 22) as [E|E]; known_country E. }
  destruct (Z.leb_spec 15 (jslength s)) as [_|E]; [|unfold jslength in E; lia].
  eexists. split; [reflexivity|].
  cbn [info_isValid countryCode bankCode branchCode accountNumber info_message].
  pose proof (slice_4_8_nonempty s H15) as Hb.
  repeat split; try discriminate; try easy.
  - now apply slice_8_nonempty.
  - destruct (slice s 4 (Some 8%Z)); [easy|reflexivity].
Qed.

(** C7. The German and the British example decompose into the fields the
    specification lists. *)
Theorem canonical_examples_decompose :
  extractBankAccountInfo (js "DE89370400440532013000")
  = Some {| info_isValid := true;
            countryCode := js "DE";
            bankCode := js "37040044";
            branchCode := js "";
            accountNumber := js "0532013000";
            info_message := "Successfully extracted bank account information" |}
  /\ extractBankAccountInfo (js "GB29NWBK60161331926819")
     = Some {| info_isValid := true;
               countryCode := js "GB";
               bankCode := js "NWBK";
               branchCode := js "601613";
               accountNumber := js "31926819";
               info_message := "Successfully extracted bank account information" |}.
Proof. split; vm_compute; reflexivity. Qed.

Lemma extractBankAccountInfo_total x :
  exists r, extractBankAccountInfo x = Some r.
Proof.
  unfold extractBankAccountInfo.
  destruct (validateIban_total (toUpperCase (removeWhitespace x))) as [[|] ->].
  - destruct (parseByCountry _ _) as [[b r] a]. eauto.
  - eauto.
Qed.

(** C9. No operation of the core throws.  [normalize] and
    [getCountryFromIban] are built from calls that cannot fail and
    return a string on every input; [validateIban],
    [getValidationMessage] and [extractBankAccountInfo], which reach
    [BigInt], return a value on every input, since [BigInt] is called
    only behind the format test and then always on a non-empty string of
    decimal digits, on which it succeeds. *)
Theorem core_total (x : jsstring) :
  (exists s, normalize x = s)
  /\ (exists s, getCountryFromIban x = s)
  /\ (exists b, validateIban x = Some b)
  /\ (exists r, getValidationMessage x = Some r)
  /\ (exists r, extractBankAccountInfo x = Some r)
  /\ (testIbanFormat (toUpperCase (removeWhitespace x)) = true ->
      forallb isDigit (numericOf (toUpperCase (removeWhitespace x))) = true
      /\ numericOf (toUpperCase (removeWhitespace x)) <> []
      /\ exists n, BigInt (numericOf (toUpperCase (removeWhitespace x))) = Some n).
Proof.
  repeat split; eauto using validateIban_total, getValidationMessage_total,
    extractBankAccountInfo_total.
  - now apply numericOf_digits.
  - now apply numericOf_digits.
  - destruct (numericOf_digits _ H) as [Hd Hne].
    rewrite (BigInt_digits _ Hd Hne). eauto.
Qed.

End Decomposition.

(** ** Formatting *)

Lemma isAlnum_isAscii c : isAlnum c = true -> isAscii c = true.
Proof. char_classes. Qed.

Lemma isAlnum_not_space c : isAlnum c = true -> isWhiteSpace c = false.
Proof. char_classes. Qed.

Lemma isUpperOrDigit_isAlnum c : isUpperOrDigit c = true -> isAlnum c = true.
Proof. char_classes. Qed.

Lemma isUpperOrDigit_isDot c : isUpperOrDigit c = true -> isDot c = true.
Proof. char_classes. Qed.

Lemma asciiUpper_alnum c :
  isAlnum c = true -> isUpperOrDigit (asciiUpper c) = true.
Proof.
  unfold asciiUpper. destruct (isLower c) eqn:E; char_classes.
Qed.



Lemma removeWhitespace_removeNonAlnum x :
  removeWhitespace (removeNonAlnum x) = removeNonAlnum x.
Proof.
  apply filter_id, forallb_forall. intros c Hc.
  apply filter_In in Hc as [_ Hc]. now rewrite (isAlnum_not_space c Hc).
Qed.

(** Five code units at a time: the induction that follows the scan of
    [spaceEveryFour]. *)
Lemma spaceEveryFour_ind (P : jsstring -> Prop) :
  (forall s, (length s <= 4)%nat -> P s) ->
  (forall a b c d e rest,
      P (e :: rest) -> P (b :: c :: d :: e :: rest) ->
      P (a :: b :: c :: d :: e :: rest)) ->
  forall s, P s.
Proof.
  intros Hshort Hstep s.
  assert (H : forall n s, (length s <= n)%nat -> P s).
  { clear s. induction n as [|n IH]; intros s Hs.
    - apply Hshort. lia.
    - destruct s as [|a [|b [|c [|d [|e rest]]]]];
        try (apply Hshort; cbn; lia).
      cbn [length] in Hs. apply Hstep; apply IH; cbn [length]; lia. }
  apply (H (length s)). lia.
Qed.

Lemma spaceEveryFour_short s : (length s <= 4)%nat -> spaceEveryFour s = s.
Proof.
  destruct s as [|a [|b [|c [|d [|e rest]]]]]; cbn [length]; try reflexivity.
  lia.
Qed.

Lemma spaceEveryFour_step a b c d e rest :
  spaceEveryFour (a :: b :: c :: d :: e :: rest)
  = if isDot a && isDot b && isDot c && isDot d && isDot e
    then a :: b :: c :: d :: 32 :: spaceEveryFour (e :: rest)
    else a :: spaceEveryFour (b :: c :: d :: e :: rest).
Proof. reflexivity. Qed.

(** The scan only adds spaces. *)
Lemma spaceEveryFour_filter (f : N -> bool) s :
  f 32 = false -> filter f (spaceEveryFour s) = filter f s.
Proof.
  intros Hf. induction s as [s Hs|a b c d e rest IH1 IH2]
    using spaceEveryFour_ind.
  - now rewrite spaceEveryFour_short.
  - rewrite spaceEveryFour_step.
    destruct (isDot a && isDot b && isDot c && isDot d && isDot e).
    + change (a :: b :: c :: d :: 32 :: spaceEveryFour (e :: rest))
        with ([a; b; c; d; 32] ++ spaceEveryFour (e :: rest)).
      change (a :: b :: c :: d :: e :: rest)
        with ([a; b; c; d] ++ e :: rest).
      rewrite !filter_app, IH1. f_equal.
      cbn [filter]. rewrite Hf. reflexivity.
    + cbn [filter]. now rewrite IH2.
Qed.

Lemma spaceEveryFour_nil s : spaceEveryFour s = [] <-> s = [].
Proof.
  destruct s as [|a [|b [|c [|d [|e rest]]]]]; try easy.
  rewrite spaceEveryFour_step. now destruct (_ && _).
Qed.

Lemma spaceEveryFour_normalized_step a b c d e rest :
  isNormalized (a :: b :: c :: d :: e :: rest) = true ->
  spaceEveryFour (a :: b :: c :: d :: e :: rest)
  = a :: b :: c :: d :: 32 :: spaceEveryFour (e :: rest).
Proof.
  unfold isNormalized. cbn [forallb]. rewrite !andb_true_iff.
  intros (Ha & Hb & Hc & Hd & He & _). rewrite spaceEveryFour_step.
  now rewrite !isUpperOrDigit_isDot.
Qed.

Lemma isNormalized_tail4 a b c d l :
  isNormalized (a :: b :: c :: d :: l) = true -> isNormalized l = true.
Proof.
  unfold isNormalized. cbn [forallb]. rewrite !andb_true_iff. tauto.
Qed.

Section Formatting.

Context {UCD : UnicodeData}.

Lemma normalize_ascii_map x : normalize x = map asciiUpper (removeNonAlnum x).
Proof.
  unfold normalize. apply toUpperCase_ascii, forallb_forall.
  intros c Hc. apply filter_In in Hc as [_ Hc]. now apply isAlnum_isAscii.
Qed.

Lemma normalize_isNormalized x : isNormalized (normalize x) = true.
Proof.
  rewrite normalize_ascii_map. apply forallb_forall. intros c Hc.
  apply in_map_iff in Hc as (c0 & <- & Hc0).
  apply filter_In in Hc0 as [_ Hc0]. now apply asciiUpper_alnum.
Qed.

Lemma normalize_fixed s : isNormalized s = true -> normalize s = s.
Proof.
  intros H. unfold normalize, removeNonAlnum.
  rewrite filter_id by (revert H; apply forallb_impl, isUpperOrDigit_isAlnum).
  now apply toUpperCase_normalized.
Qed.

Lemma normalize_spaceEveryFour s :
  isNormalized s = true -> normalize (spaceEveryFour s) = s.
Proof.
  intros H. unfold normalize, removeNonAlnum.
  rewrite spaceEveryFour_filter by reflexivity.
  now apply (normalize_fixed s).
Qed.

Lemma removeWhitespace_formatIban_eq x :
  removeWhitespace (formatIban x) = normalize x.
Proof.
  unfold formatIban, removeWhitespace.
  rewrite spaceEveryFour_filter by reflexivity.
  apply removeWhitespace_none, isNormalized_no_space, normalize_isNormalized.
Qed.

Lemma formatIban_falsy x : falsy (formatIban x) = falsy (normalize x).
Proof.
  unfold formatIban. destruct (normalize x) as [|a s] eqn:E; [reflexivity|].
  destruct (spaceEveryFour (a :: s)) eqn:E'; [|reflexivity].
  apply (proj1 (spaceEveryFour_nil _)) in E'. discriminate E'.
Qed.

End Formatting.

(** The layout of the groups, on a normalized text. *)
Lemma spaceEveryFour_length s :
  isNormalized s = true ->
  length (spaceEveryFour s) = (length s + (length s - 1) / 4)%nat.
Proof.
  induction s as [s Hs|a b c d e rest IH1 _] using spaceEveryFour_ind;
    intros Hn.
  - rewrite spaceEveryFour_short by exact Hs.
    rewrite Nat.div_small by lia. lia.
  - rewrite (spaceEveryFour_normalized_step _ _ _ _ _ _ Hn).
    cbn [length]. rewrite (IH1 (isNormalized_tail4 _ _ _ _ _ Hn)).
    cbn [length].
    replace (S (S (S (S (S (length rest))))) - 1)%nat
      with ((S (length rest) - 1) + 1 * 4)%nat by lia.
    rewrite Nat.div_add by lia. lia.
Qed.

Lemma spaceEveryFour_nth s :
  isNormalized s = true ->
  forall i,
    nth_error (spaceEveryFour s) i
    = if (i mod 5 =? 4)%nat
      then if (i <? length (spaceEveryFour s))%nat then Some 32 else None
      else nth_error s (i - i / 5).
Proof.
  induction s as [s Hs|a b c d e rest IH1 _] using spaceEveryFour_ind;
    intros Hn i.
  - rewrite spaceEveryFour_short by exact Hs.
    pose proof (Nat.div_mod_eq i 5) as Hi.
    pose proof (Nat.mod_upper_bound i 5 ltac:(lia)) as Hr.
    destruct (Nat.eqb_spec (i mod 5) 4) as [E|E].
    + destruct (Nat.ltb_spec i (length s)); [lia|].
      apply nth_error_None. lia.
    + destruct (Nat.le_gt_cases 5 i) as [H5|H5].
      * rewrite (proj2 (nth_error_None s i)) by lia.
        symmetry. apply nth_error_None. lia.
      * f_equal. lia.
  - rewrite (spaceEveryFour_normalized_step _ _ _ _ _ _ Hn).
    destruct i as [|[|[|[|[|j]]]]]; try reflexivity.
    change (S (S (S (S (S j))))) with (5 + j)%nat.
    replace (5 + j)%nat with (j + 1 * 5)%nat by lia.
    rewrite Nat.Div0.mod_add, Nat.div_add by lia.
    replace (j + 1 * 5)%nat with (S (S (S (S (S j))))) by lia.
    cbn [nth_error length].
    rewrite (IH1 (isNormalized_tail4 _ _ _ _ _ Hn) j).
    pose proof (Nat.div_mod_eq j 5) as Hj.
    change (S (S (S (S (S j)))) <? S (S (S (S (S
              (length (spaceEveryFour (e :: rest))))))))%nat
      with (j <? length (spaceEveryFour (e :: rest)))%nat.
    destruct (j mod 5 =? 4)%nat; [reflexivity|].
    replace (S (S (S (S (S j)))) - (j / 5 + 1))%nat
      with (S (S (S (S (j - j / 5))))) by lia.
    reflexivity.
Qed.

Section FormattingProperties.

Context {UCD : UnicodeData}.

(** X1. Normalizing twice is normalizing once, and the result holds only
    characters of [[A-Z0-9]]. *)
Theorem normalize_idempotent (x : jsstring) :
  normalize (normalize x) = normalize x
  /\ isNormalized (normalize x) = true.
Proof.
  split.
  - apply normalize_fixed, normalize_isNormalized.
  - apply normalize_isNormalized.
Qed.

(** X2. [formatIban] is idempotent: formatting a formatted text changes
    nothing. *)
Theorem formatIban_idempotent (x : jsstring) :
  formatIban (formatIban x) = formatIban x.
Proof.
  unfold formatIban at 1. cbv zeta. unfold formatIban at 1. cbv zeta.
  rewrite normalize_spaceEveryFour by apply normalize_isNormalized.
  reflexivity.
Qed.

(** X3. Taking the spaces out of [formatIban]'s result gives the
    normalized text back: the scan adds spaces and nothing else. *)
Theorem formatIban_strip (x : jsstring) :
  removeWhitespace (formatIban x) = normalize x
  /\ normalize (formatIban x) = normalize x.
Proof.
  split.
  - apply removeWhitespace_formatIban_eq.
  - unfold formatIban. cbv zeta.
    apply normalize_spaceEveryFour, normalize_isNormalized.
Qed.

(** X4. The result of [formatIban] is the normalized text in groups of
    four: with [n] normalized characters it has [n + (n - 1) / 4] code
    units; position [i] holds a space exactly when [i mod 5 = 4] and [i]
    is inside, and otherwise the normalized character of index
    [i - i / 5].  So no group is longer than four and no space ends the
    text. *)
Theorem formatIban_layout (x : jsstring) :
  length (formatIban x)
  = (length (normalize x) + (length (normalize x) - 1) / 4)%nat
  /\ forall i,
       nth_error (formatIban x) i
       = if (i mod 5 =? 4)%nat
         then if (i <? length (formatIban x))%nat then Some 32 else None
         else nth_error (normalize x) (i - i / 5).
Proof.
  unfold formatIban. cbv zeta. split.
  - apply spaceEveryFour_length, normalize_isNormalized.
  - apply spaceEveryFour_nth, normalize_isNormalized.
Qed.

(** X5. Formatting does not change the verdict: [validateIban] and
    [getValidationMessage] give on [formatIban x] what they give on the
    normalized text of [x]. *)
Theorem formatIban_preserves_verdict (x : jsstring) :
  validateIban (formatIban x) = validateIban (normalize x)
  /\ getValidationMessage (formatIban x) = getValidationMessage (normalize x).
Proof.
  pose proof (removeWhitespace_formatIban_eq x) as Hw.
  pose proof (removeWhitespace_none _
                (isNormalized_no_space _ (normalize_isNormalized x))) as Hn.
  split.
  - rewrite !validateIban_cleaned, Hw, Hn, formatIban_falsy. reflexivity.
  - rewrite !getValidationMessage_cases, Hw, Hn, formatIban_falsy.
    reflexivity.
Qed.

End FormattingProperties.

(** ** What the checksum detects *)

Lemma numeralFrom_expand r a :
  isNormalized r = true ->
  fold_left (fun acc c => (acc * 10 + (Z.of_N c - 48))%Z) (spec_expand r) a
  = numeralFrom r a.
Proof.
  unfold isNormalized, spec_expand, numeralFrom. revert a.
  induction r as [|c t IH]; intros a; [reflexivity|].
  cbn [forallb flat_map fold_left]. rewrite andb_true_iff. intros [Hc Ht].
  rewrite fold_left_app, (IH _ Ht). f_equal.
  unfold charWeight, charValue. destruct (isUpper c) eqn:E.
  - cbn [fold_left].
    pose proof (N.div_mod (c - 55) 10 ltac:(lia)) as Hdm.
    assert (65 <= c) by char_classes.
    set (q := (c - 55) / 10) in *. set (m := (c - 55) mod 10) in *. lia.
  - reflexivity.
Qed.

Lemma decimalValue_numeralFrom r :
  isNormalized r = true -> decimalValue (spec_expand r) = numeralFrom r 0.
Proof. apply numeralFrom_expand. Qed.

Lemma numeralFrom_app r1 r2 a :
  numeralFrom (r1 ++ r2) a = numeralFrom r2 (numeralFrom r1 a).
Proof. apply fold_left_app. Qed.

Lemma numeralFrom_affine r a :
  numeralFrom r a = (a * weightProduct r + numeralFrom r 0)%Z.
Proof.
  revert a. induction r as [|c t IH]; intros a.
  - cbn. lia.
  - change (numeralFrom (c :: t) a)
      with (numeralFrom t (a * charWeight c + charValue c)).
    change (numeralFrom (c :: t) 0)
      with (numeralFrom t (0 * charWeight c + charValue c)).
    change (weightProduct (c :: t)) with (charWeight c * weightProduct t)%Z.
    rewrite (IH (a * charWeight c + charValue c)%Z).
    rewrite (IH (0 * charWeight c + charValue c)%Z). ring.
Qed.

Lemma weightProduct_coprime r : Z.gcd 97 (weightProduct r) = 1%Z.
Proof.
  induction r as [|c t IH]; [reflexivity|].
  change (weightProduct (c :: t)) with (charWeight c * weightProduct t)%Z.
  apply Z.coprime_mul_r; [|exact IH].
  unfold charWeight. now destruct (isUpper c).
Qed.

Lemma small_multiple_of_97 d : (97 | d)%Z -> (-97 < d < 97)%Z -> d = 0%Z.
Proof. intros [k ->] H. lia. Qed.

Lemma same_remainder_divide a b :
  (a mod 97 = b mod 97)%Z -> (97 | a - b)%Z.
Proof.
  intros H. apply Z.mod_divide; [lia|].
  rewrite Zminus_mod, H, Z.sub_diag. reflexivity.
Qed.

Lemma charValue_bounds c :
  isUpperOrDigit c = true -> (0 <= charValue c <= 35)%Z.
Proof.
  intros H. unfold charValue. destruct (isUpper c) eqn:E; char_classes.
Qed.

Lemma charValue_inj c c' :
  isUpperOrDigit c = true -> isUpperOrDigit c' = true ->
  isUpper c' = isUpper c -> charValue c' = charValue c -> c' = c.
Proof.
  intros _ _ Hk. unfold charValue. rewrite Hk.
  destruct (isUpper c); lia.
Qed.

(** Where a character of the text ends up once the first four characters
    have been moved behind the rest. *)
Lemma spec_rearrange_split p q :
  exists A B, forall c, spec_rearrange (p ++ c :: q) = A ++ c :: B.
Proof.
  unfold spec_rearrange.
  destruct (Nat.le_gt_cases 4 (length p)) as [H|H].
  - exists (skipn 4 p), (q ++ firstn 4 p). intros c.
    rewrite skipn_app, firstn_app.
    replace (4 - length p)%nat with 0%nat by lia.
    cbn [skipn firstn]. now rewrite app_nil_r, <- app_assoc.
  - exists (skipn (3 - length p) q ++ p), (firstn (3 - length p) q).
    intros c. rewrite skipn_app, firstn_app.
    rewrite skipn_all2, firstn_all2 by lia.
    replace (4 - length p)%nat with (S (3 - length p)) by lia.
    cbn [skipn firstn app]. now rewrite <- app_assoc.
Qed.

Lemma spec_rearrange_split2 p q :
  length p <> 3%nat ->
  exists A B,
    forall a b, spec_rearrange (p ++ a :: b :: q) = A ++ a :: b :: B.
Proof.
  intros H3. unfold spec_rearrange.
  destruct (Nat.le_gt_cases 4 (length p)) as [H|H].
  - exists (skipn 4 p), (q ++ firstn 4 p). intros a b.
    rewrite skipn_app, firstn_app.
    replace (4 - length p)%nat with 0%nat by lia.
    cbn [skipn firstn]. now rewrite app_nil_r, <- app_assoc.
  - exists (skipn (2 - length p) q ++ p), (firstn (2 - length p) q).
    intros a b. rewrite skipn_app, firstn_app.
    rewrite skipn_all2, firstn_all2 by lia.
    replace (4 - length p)%nat with (S (S (2 - length p))) by lia.
    cbn [skipn firstn app]. now rewrite <- app_assoc.
Qed.

Lemma isNormalized_app r1 r2 :
  isNormalized (r1 ++ r2) = isNormalized r1 && isNormalized r2.
Proof. apply forallb_app. Qed.

Lemma checksumValid_numeralFrom s :
  isNormalized s = true ->
  checksumValid s = (numeralFrom (spec_rearrange s) 0 mod 97 =? 1)%Z.
Proof.
  intros H. unfold checksumValid.
  now rewrite decimalValue_numeralFrom by now apply spec_rearrange_normalized.
Qed.

(** Two normalized texts whose numerals differ by a product that 97 does
    not divide cannot both pass the checksum. *)
Lemma checksum_separates s s' :
  isNormalized s = true -> isNormalized s' = true ->
  ~ (97 | numeralFrom (spec_rearrange s) 0
          - numeralFrom (spec_rearrange s') 0)%Z ->
  checksumValid s = true -> checksumValid s' = false.
Proof.
  intros Hs Hs' Hnd.
  rewrite (checksumValid_numeralFrom s Hs), (checksumValid_numeralFrom s' Hs').
  rewrite Z.eqb_eq. intros H1.
  apply Z.eqb_neq. intros H2. apply Hnd, same_remainder_divide. congruence.
Qed.

Lemma acceptsCleaned_checksum s :
  acceptsCleaned s = true -> checksumValid s = true.
Proof. unfold acceptsCleaned. rewrite !andb_true_iff. tauto. Qed.

Lemma acceptsCleaned_no_checksum s :
  checksumValid s = false -> acceptsCleaned s = false.
Proof. unfold acceptsCleaned. intros ->. apply andb_false_r. Qed.

Lemma removeWhitespace_asciiUpper x :
  removeWhitespace (map asciiUpper x) = map asciiUpper (removeWhitespace x).
Proof.
  unfold removeWhitespace. induction x as [|a x IH]; [reflexivity|].
  cbn [map filter]. rewrite asciiUpper_space, IH.
  now destruct (isWhiteSpace a).
Qed.

Lemma isNormalized_middle p c q :
  isNormalized (p ++ c :: q) = true ->
  isNormalized p = true /\ isUpperOrDigit c = true /\ isNormalized q = true.
Proof.
  rewrite isNormalized_app. unfold isNormalized at 2. cbn [forallb].
  rewrite !andb_true_iff. tauto.
Qed.

Lemma isNormalized_middle_intro p c q :
  isNormalized p = true -> isUpperOrDigit c = true -> isNormalized q = true ->
  isNormalized (p ++ c :: q) = true.
Proof.
  intros Hp Hc Hq. rewrite isNormalized_app, Hp. unfold isNormalized.
  cbn [forallb]. now rewrite Hc.
Qed.

Lemma charWeight_same c c' : isUpper c' = isUpper c -> charWeight c' = charWeight c.
Proof. unfold charWeight. now intros ->. Qed.

Section ChecksumProperties.

Context {UCD : UnicodeData}.

(** X6. [validateIban] does not see white space, nor, on Basic Latin
    input, the case of the letters. *)
Theorem validateIban_insensitive (x : jsstring) :
  validateIban (removeWhitespace x) = validateIban x
  /\ (forallb isAscii x = true -> validateIban (toUpperCase x) = validateIban x).
Proof.
  split.
  - rewrite !validateIban_cleaned, removeWhitespace_idem.
    destruct (removeWhitespace x) as [|b w] eqn:E.
    + change (toUpperCase []) with (@nil N).
      now rewrite acceptsCleaned_nil, !andb_false_r.
    + destruct x as [|a x']; [discriminate E|reflexivity].
  - intros Ha. rewrite !validateIban_cleaned.
    assert (Haw : forallb isAscii (removeWhitespace x) = true).
    { rewrite forallb_forall in *. intros c Hc.
      apply filter_In in Hc. now apply Ha. }
    rewrite (toUpperCase_ascii x Ha), removeWhitespace_asciiUpper.
    rewrite <- (toUpperCase_ascii _ Haw), (toUpperCase_ascii_idem _ Haw).
    now destruct x.
Qed.

(** X7. What [validateIban] accepts, for any input: the input is not
    empty and its cleaned text (white space removed, upper case) matches
    the format, has 15 to 34 characters and a numeral that leaves 1
    modulo 97.  In particular an accepted text holds nothing but
    [[A-Z0-9]] once cleaned. *)
Theorem validateIban_accepts_iff (x : jsstring) :
  validateIban x = Some true
  <-> x <> []
      /\ testIbanFormat (toUpperCase (removeWhitespace x)) = true
      /\ (15 <= length (toUpperCase (removeWhitespace x)) <= 34)%nat
      /\ (decimalValue
            (spec_expand (spec_rearrange (toUpperCase (removeWhitespace x))))
          mod 97 = 1)%Z.
Proof.
  rewrite validateIban_cleaned. unfold acceptsCleaned, checksumValid.
  set (c := toUpperCase (removeWhitespace x)).
  set (v := decimalValue (spec_expand (spec_rearrange c))).
  transitivity
    (negb (falsy x)
     && (testIbanFormat c && (15 <=? length c)%nat && (length c <=? 34)%nat
         && (v mod 97 =? 1)%Z) = true).
  { split; [congruence | now intros ->]. }
  rewrite !andb_true_iff, !Nat.leb_le, Z.eqb_eq, negb_true_iff.
  destruct x as [|a x']; cbn [falsy]; intuition congruence.
Qed.

(** X8. A wrong character is detected: in a normalized text that
    [validateIban] accepts, putting another digit in place of a digit, or
    another letter in place of a letter, gives a text that
    [validateIban] rejects. *)
Theorem single_substitution_detected (p q : jsstring) (c c' : N) :
  isNormalized (p ++ c :: q) = true ->
  isUpperOrDigit c' = true ->
  isUpper c' = isUpper c ->
  c' <> c ->
  validateIban (p ++ c :: q) = Some true ->
  validateIban (p ++ c' :: q) = Some false.
Proof.
  intros Hn Hc' Hk Hne Hv.
  destruct (isNormalized_middle p c q Hn) as (Hp & Hc & Hq).
  pose proof (isNormalized_middle_intro p c' q Hp Hc' Hq) as Hn'.
  rewrite (validateIban_normalized _ Hn) in Hv. injection Hv as Hv.
  rewrite (validateIban_normalized _ Hn'). f_equal.
  apply acceptsCleaned_no_checksum.
  apply (checksum_separates (p ++ c :: q)); [assumption..| |
    now apply acceptsCleaned_checksum].
  destruct (spec_rearrange_split p q) as (A & B & HAB).
  rewrite !HAB, !numeralFrom_app.
  change (numeralFrom (c :: B) (numeralFrom A 0))
    with (numeralFrom B (numeralFrom A 0 * charWeight c + charValue c)).
  change (numeralFrom (c' :: B) (numeralFrom A 0))
    with (numeralFrom B (numeralFrom A 0 * charWeight c' + charValue c')).
  rewrite (numeralFrom_affine B (_ + charValue c)).
  rewrite (numeralFrom_affine B (_ + charValue c')).
  rewrite (charWeight_same c c' Hk).
  intros Hdiv.
  replace (_ - _)%Z
    with (weightProduct B * (charValue c - charValue c'))%Z in Hdiv by ring.
  apply Z.gauss in Hdiv; [|apply weightProduct_coprime].
  pose proof (charValue_bounds c Hc). pose proof (charValue_bounds c' Hc').
  apply small_multiple_of_97 in Hdiv; [|lia].
  apply Hne, charValue_inj; try assumption. lia.
Qed.

(** X9. Two neighbours swapped are detected: in a normalized text that
    [validateIban] accepts, exchanging two different adjacent digits, or
    two different adjacent letters, gives a text that [validateIban]
    rejects, unless the two stand across the fourth and fifth position
    (which the rearrangement pulls apart). *)
Theorem adjacent_transposition_detected (p q : jsstring) (a b : N) :
  isNormalized (p ++ a :: b :: q) = true ->
  isUpper a = isUpper b ->
  a <> b ->
  length p <> 3%nat ->
  validateIban (p ++ a :: b :: q) = Some true ->
  validateIban (p ++ b :: a :: q) = Some false.
Proof.
  intros Hn Hk Hne H3 Hv.
  destruct (isNormalized_middle p a (b :: q) Hn) as (Hp & Ha & Hbq).
  destruct (isNormalized_middle [] b q Hbq) as (_ & Hb & Hq).
  assert (Hn' : isNormalized (p ++ b :: a :: q) = true).
  { apply isNormalized_middle_intro; [assumption..|].
    now apply (isNormalized_middle_intro [] a q). }
  rewrite (validateIban_normalized _ Hn) in Hv. injection Hv as Hv.
  rewrite (validateIban_normalized _ Hn'). f_equal.
  apply acceptsCleaned_no_checksum.
  apply (checksum_separates (p ++ a :: b :: q)); [assumption..| |
    now apply acceptsCleaned_checksum].
  destruct (spec_rearrange_split2 p q H3) as (A & B & HAB).
  rewrite !HAB, !numeralFrom_app.
  change (numeralFrom (a :: b :: B) (numeralFrom A 0))
    with (numeralFrom B ((numeralFrom A 0 * charWeight a + charValue a)
                         * charWeight b + charValue b)).
  change (numeralFrom (b :: a :: B) (numeralFrom A 0))
    with (numeralFrom B ((numeralFrom A 0 * charWeight b + charValue b)
                         * charWeight a + charValue a)).
  rewrite (numeralFrom_affine B (_ + charValue b)).
  rewrite (numeralFrom_affine B (_ + charValue a)).
  rewrite (charWeight_same b a Hk).
  intros Hdiv.
  replace (_ - _)%Z
    with (weightProduct B
          * ((charWeight b - 1) * (charValue a - charValue b)))%Z
    in Hdiv by ring.
  apply Z.gauss in Hdiv; [|apply weightProduct_coprime].
  apply Z.gauss in Hdiv;
    [|unfold charWeight; now destruct (isUpper b)].
  pose proof (charValue_bounds a Ha). pose proof (charValue_bounds b Hb).
  apply small_multiple_of_97 in Hdiv; [|lia].
  apply Hne, charValue_inj; try assumption. lia.
Qed.

End ChecksumProperties.

(** ** What decomposition keeps *)

Lemma firstn_chain {A} (m k : nat) (t : list A) :
  firstn m t ++ firstn k (skipn m t) = firstn (m + k) t.
Proof.
  revert t. induction m as [|m IH]; intros t; [reflexivity|].
  destruct t as [|x t]; [now rewrite !firstn_nil|].
  cbn [firstn skipn Nat.add app]. now rewrite IH.
Qed.

Lemma slice_join s a b c :
  (0 <= a <= b)%Z -> (b <= c)%Z ->
  slice s a (Some b) ++ slice s b (Some c) = slice s a (Some c).
Proof.
  intros Hab Hbc. rewrite !slice_span by lia.
  replace (Z.to_nat b) with (Z.to_nat (b - a) + Z.to_nat a)%nat by lia.
  rewrite <- skipn_skipn, firstn_chain. f_equal. lia.
Qed.

Lemma slice_join_end s a b :
  (0 <= a <= b)%Z -> slice s a (Some b) ++ slice s b None = slice s a None.
Proof.
  intros Hab. rewrite slice_span, !slice_from by lia.
  replace (Z.to_nat b) with (Z.to_nat (b - a) + Z.to_nat a)%nat by lia.
  rewrite <- skipn_skipn. apply firstn_skipn.
Qed.

Lemma slice_to_end s a b :
  (0 <= a <= b)%Z -> (jslength s <= b)%Z ->
  slice s a (Some b) = slice s a None.
Proof.
  intros Hab Hb. rewrite slice_span, slice_from by lia.
  apply firstn_all2. rewrite length_skipn. unfold jslength in Hb. lia.
Qed.

Lemma slice_whole s : slice s 0 None = s.
Proof. now rewrite slice_from by lia. Qed.

Lemma slice_length s a b :
  (0 <= a <= b)%Z -> (b <= jslength s)%Z ->
  length (slice s a (Some b)) = Z.to_nat (b - a).
Proof.
  intros Hab Hb. rewrite slice_span by lia.
  rewrite length_firstn, length_skipn. unfold jslength in Hb. lia.
Qed.

Lemma testCountryPrefix_firstn s :
  testCountryPrefix s = true ->
  testCountryPrefix (firstn 2 s) = true /\ length (firstn 2 s) = 2%nat.
Proof. destruct s as [|a [|b rest]]; [easy..|]. now cbn. Qed.

Section DecompositionProperties.

Context {UCD : UnicodeData}.

Lemma acceptsCleaned_validateIban c :
  acceptsCleaned c = true ->
  isNormalized c = true /\ validateIban c = Some true
  /\ (15 <= length c)%nat /\ testCountryPrefix c = true.
Proof.
  intros H. pose proof H as H'. unfold acceptsCleaned in H'.
  rewrite !andb_true_iff, !Nat.leb_le in H'.
  destruct H' as [[[Hf H15] _] _].
  pose proof (testIbanFormat_normalized c Hf) as Hn.
  rewrite (validateIban_normalized c Hn), H.
  auto using testIbanFormat_prefix.
Qed.

(** The outcome of [extractBankAccountInfo] on a normalized text that
    [validateIban] accepts. *)
Lemma extractBankAccountInfo_accepted s :
  isNormalized s = true -> validateIban s = Some true ->
  (15 <= length s)%nat
  /\ extractBankAccountInfo s
     = Some (let '(bank, branch, account) := parseByCountry (firstn 2 s) s in
             {| info_isValid := true;
                countryCode := firstn 2 s;
                bankCode := bank;
                branchCode := branch;
                accountNumber := account;
                info_message :=
                  if falsy bank
                  then "Partial information extracted due to unknown country format"
                  else "Successfully extracted bank account information" |}).
Proof.
  intros Hn Hv. pose proof Hv as Hacc.
  rewrite (validateIban_normalized s Hn) in Hacc.
  assert (H15 : (15 <= length s)%nat).
  { injection Hacc as Hacc. now apply acceptsCleaned_validateIban in Hacc. }
  split; [exact H15|]. unfold extractBankAccountInfo.
  rewrite (removeWhitespace_none s (isNormalized_no_space s Hn)).
  rewrite (toUpperCase_normalized s Hn), Hv.
  rewrite getCountryFromIban_normalized by (easy || lia).
  now destruct (parseByCountry (firstn 2 s) s) as [[bank branch] account].
Qed.

Lemma valid_message_extract (x : jsstring) (r : ValidationResult) :
  getValidationMessage x = Some r ->
  isValid r = true ->
  exists i,
    extractBankAccountInfo x = Some i
    /\ info_isValid i = true
    /\ countryCode i = firstn 2 (toUpperCase (removeWhitespace x))
    /\ testCountryPrefix (countryCode i) = true
    /\ length (countryCode i) = 2%nat.
Proof.
  rewrite getValidationMessage_cases. intros [= <-] Hr.
  set (c := toUpperCase (removeWhitespace x)) in *.
  assert (Hacc : acceptsCleaned c = true).
  { destruct (falsy x); [discriminate Hr|].
    destruct (_ <? 15)%nat; [discriminate Hr|].
    destruct (34 <? _)%nat; [discriminate Hr|].
    destruct (testCountryPrefix c); [|discriminate Hr].
    now destruct (acceptsCleaned c). }
  destruct (acceptsCleaned_validateIban c Hacc) as (Hn & Hv & H15 & Hp).
  unfold extractBankAccountInfo. fold c. rewrite Hv.
  rewrite getCountryFromIban_normalized by (easy || lia).
  destruct (parseByCountry (firstn 2 c) c) as [[bank branch] account].
  eexists. split; [reflexivity|]. cbn [info_isValid countryCode].
  destruct (testCountryPrefix_firstn c Hp). auto.
Qed.

(** X10. What the message path accepts, the decomposition accepts: when
    [getValidationMessage] reports a valid input, [extractBankAccountInfo]
    returns [isValid = true] on the same input, with a country code of
    exactly two letters [A-Z], the first two characters of the cleaned
    text. *)
Theorem valid_message_decomposes (x : jsstring) (r : ValidationResult) :
  getValidationMessage x = Some r ->
  isValid r = true ->
  exists i,
    extractBankAccountInfo x = Some i
    /\ info_isValid i = true
    /\ countryCode i = firstn 2 (toUpperCase (removeWhitespace x))
    /\ testCountryPrefix (countryCode i) = true
    /\ length (countryCode i) = 2%nat.
Proof. apply valid_message_extract. Qed.

(** X11. Nothing is lost or invented: on a normalized text [s] that
    [validateIban] accepts, whenever a bank code is extracted, the first
    four characters followed by bank code, branch code and account number
    give [s] back; for France the two characters behind position 25 (the
    key) belong to no field and have to be added. *)
Theorem extractBankAccountInfo_reassembles (s : jsstring) :
  isNormalized s = true ->
  validateIban s = Some true ->
  exists r,
    extractBankAccountInfo s = Some r
    /\ (bankCode r <> [] ->
        firstn 4 s ++ bankCode r ++ branchCode r ++ accountNumber r
        ++ (if jsstring_eqb (countryCode r) (js "FR") then skipn 25 s else [])
        = s).
Proof.
  intros Hn Hv.
  destruct (extractBankAccountInfo_accepted s Hn Hv) as [H15 ->].
  assert (H4 : firstn 4 s = slice s 0 (Some 4%Z)) by now rewrite slice_span.
  assert (H25 : skipn 25 s = slice s 25 None) by now rewrite slice_from.
  unfold parseByCountry.
  destruct (jsstring_eqb (firstn 2 s) (js "DE")) eqn:EDE.
  { destruct (Z.eqb_spec (jslength s) 22) as [E|E]; eexists;
      (split; [reflexivity|]); cbn [bankCode branchCode accountNumber
                                     countryCode]; [|easy].
    intros _. unfold jsstring_eqb in EDE |- *.
    destruct (list_eq_dec N.eq_dec (firstn 2 s) (js "DE")) as [->|];
      [|discriminate EDE].
    cbn [app]. rewrite app_nil_r, H4, !slice_join by lia.
    rewrite slice_to_end by lia. apply slice_whole. }
  destruct (jsstring_eqb (firstn 2 s) (js "FR")) eqn:EFR.
  { destruct (Z.eqb_spec (jslength s) 27) as [E|E]; eexists;
      (split; [reflexivity|]); cbn [bankCode branchCode accountNumber
                                     countryCode]; [|easy].
    intros _. rewrite EFR, H4, H25.
    rewrite !app_assoc, !slice_join, slice_join_end by lia.
    apply slice_whole. }
  destruct (jsstring_eqb (firstn 2 s) (js "GB")) eqn:EGB.
  { destruct (Z.eqb_spec (jslength s) 22) as [E|E]; eexists;
      (split; [reflexivity|]); cbn [bankCode branchCode accountNumber
                                     countryCode]; [|easy].
    intros _. rewrite EFR, H4.
    rewrite app_nil_r, !app_assoc, !slice_join by lia.
    rewrite slice_to_end by lia. apply slice_whole. }
  destruct (Z.leb_spec 15 (jslength s)) as [_|E]; [|unfold jslength in E; lia].
  eexists. split; [reflexivity|].
  cbn [bankCode branchCode accountNumber countryCode].
  intros _. rewrite EFR, H4. cbn [app].
  rewrite app_nil_r, app_assoc, slice_join, slice_join_end by lia.
  apply slice_whole.
Qed.

Ltac known_layout Hc Hl :=
  unfold parseByCountry, jslength; rewrite Hc, Hl;
  repeat match goal with
         | |- context [jsstring_eqb (js ?a) (js ?b)] =>
             let v := eval vm_compute in (jsstring_eqb (js a) (js b)) in
             change (jsstring_eqb (js a) (js b)) with v
         | |- context [(Z.of_nat ?n =? ?m)%Z] =>
             let v := eval vm_compute in (Z.of_nat n =? m)%Z in
             change (Z.of_nat n =? m)%Z with v
         end;
  cbv beta iota zeta; cbn [bankCode branchCode accountNumber].

(** X12. The widths of the fields: on a normalized text that
    [validateIban] accepts, a German IBAN of 22 characters gives a bank
    code of 8 and an account number of 10 with no branch code; a French
    one of 27 gives 5, 5 and 11; a British one of 22 gives 4, 6 and 8;
    any other country code gives a bank code of 4, no branch code, and
    the remaining [length s - 8] characters as account number. *)
Theorem extractBankAccountInfo_widths (s : jsstring) :
  isNormalized s = true ->
  validateIban s = Some true ->
  exists r,
    extractBankAccountInfo s = Some r
    /\ (firstn 2 s = js "DE" -> length s = 22%nat ->
        length (bankCode r) = 8%nat /\ branchCode r = []
        /\ length (accountNumber r) = 10%nat)
    /\ (firstn 2 s = js "FR" -> length s = 27%nat ->
        length (bankCode r) = 5%nat /\ length (branchCode r) = 5%nat
        /\ length (accountNumber r) = 11%nat)
    /\ (firstn 2 s = js "GB" -> length s = 22%nat ->
        length (bankCode r) = 4%nat /\ length (branchCode r) = 6%nat
        /\ length (accountNumber r) = 8%nat)
    /\ (expectedLength (firstn 2 s) = None ->
        length (bankCode r) = 4%nat /\ branchCode r = []
        /\ length (accountNumber r) = (length s - 8)%nat).
Proof.
  intros Hn Hv.
  destruct (extractBankAccountInfo_accepted s Hn Hv) as [H15 ->].
  eexists. split; [reflexivity|].
  split; [|split; [|split]].
  - intros Hc Hl. known_layout Hc Hl.
    rewrite !slice_length by (unfold jslength; lia). auto.
  - intros Hc Hl. known_layout Hc Hl.
    rewrite !slice_length by (unfold jslength; lia). auto.
  - intros Hc Hl. known_layout Hc Hl.
    rewrite !slice_length by (unfold jslength; lia). auto.
  - unfold expectedLength, parseByCountry.
    destruct (jsstring_eqb (firstn 2 s) (js "DE")); [discriminate|].
    destruct (jsstring_eqb (firstn 2 s) (js "FR")); [discriminate|].
    destruct (jsstring_eqb (firstn 2 s) (js "GB")); [discriminate|].
    intros _.
    destruct (Z.leb_spec 15 (jslength s)) as [_|E];
      [|unfold jslength in E; lia].
    cbn [bankCode branchCode accountNumber].
    rewrite slice_length by (unfold jslength; lia).
    rewrite slice_from, length_skipn by lia. auto.
Qed.

(** X13. [extractBankAccountInfo] does not see white space, nor, on Basic
    Latin input, the case of the letters. *)
Theorem extractBankAccountInfo_insensitive (x : jsstring) :
  extractBankAccountInfo (removeWhitespace x) = extractBankAccountInfo x
  /\ (forallb isAscii x = true ->
      extractBankAccountInfo (toUpperCase x) = extractBankAccountInfo x).
Proof.
  split.
  - unfold extractBankAccountInfo. now rewrite removeWhitespace_idem.
  - intros Ha. unfold extractBankAccountInfo.
    assert (Haw : forallb isAscii (removeWhitespace x) = true).
    { rewrite forallb_forall in *. intros c Hc.
      apply filter_In in Hc. now apply Ha. }
    rewrite (toUpperCase_ascii x Ha), removeWhitespace_asciiUpper.
    rewrite <- (toUpperCase_ascii _ Haw), (toUpperCase_ascii_idem _ Haw).
    reflexivity.
Qed.

(** X14. On Basic Latin input the flag [isValid] of
    [extractBankAccountInfo] is the verdict of [validateIban]. *)
Theorem extractBankAccountInfo_isValid (x : jsstring) :
  forallb isAscii x = true ->
  exists r,
    extractBankAccountInfo x = Some r
    /\ validateIban x = Some (info_isValid r).
Proof.
  intros Ha. rewrite <- (validateIban_cleaned_ascii x Ha).
  unfold extractBankAccountInfo.
  destruct (validateIban_total (toUpperCase (removeWhitespace x))) as [[|] ->].
  - destruct (parseByCountry _ _) as [[bank branch] account]. eauto.
  - eauto.
Qed.

End DecompositionProperties.

(** ** The validator component *)

Lemma option_some_eq {A} (a b : A) : Some a = Some b -> a = b.
Proof. congruence. Qed.

Lemma includes_In history entry :
  includes history entry = true <-> In entry history.
Proof.
  unfold includes. rewrite existsb_exists. split.
  - intros (e & He & Heq). unfold jsstring_eqb in Heq.
    now destruct (list_eq_dec N.eq_dec entry e) as [->|].
  - intros He. exists entry. split; [exact He|]. unfold jsstring_eqb.
    now destruct (list_eq_dec N.eq_dec entry entry).
Qed.

Lemma firstn_In {A} (n : nat) (l : list A) x : In x (firstn n l) -> In x l.
Proof.
  revert l. induction n as [|n IH]; intros [|a l]; cbn; try easy.
  intros [->|H]; auto.
Qed.

Lemma firstn_NoDup {A} (n : nat) (l : list A) : NoDup l -> NoDup (firstn n l).
Proof.
  revert l. induction n as [|n IH]; intros [|a l] H; cbn; try constructor.
  - inversion H as [|? ? Hin Hl]. intros Ha. apply Hin.
    now apply firstn_In in Ha.
  - inversion H. auto.
Qed.

Lemma removeNonAlnum_clean x :
  forallb isAscii x = true ->
  isNormalized (map asciiUpper (removeWhitespace x)) = true ->
  removeNonAlnum x = removeWhitespace x.
Proof.
  unfold removeNonAlnum, removeWhitespace, isNormalized.
  induction x as [|a x IH]; [reflexivity|].
  cbn [forallb filter]. rewrite andb_true_iff. intros [Ha Hx].
  destruct (isWhiteSpace a) eqn:Hw; cbn [negb map forallb].
  - intros H. rewrite (IH Hx H).
    destruct (isAlnum a) eqn:E; [|reflexivity].
    apply isAlnum_not_space in E. congruence.
  - rewrite andb_true_iff. intros [Hu H]. rewrite (IH Hx H).
    assert (isAlnum a = true) as ->; [|reflexivity].
    unfold asciiUpper in Hu. destruct (isLower a) eqn:El; char_classes.
Qed.

Section ComponentProperties.

Context {UCD : UnicodeData}.


(** On Basic Latin input that the message path accepts, the normalized
    text is the cleaned text, and the formatted text is valid too. *)
Lemma accepted_ascii_formatted input result :
  forallb isAscii input = true ->
  getValidationMessage (removeWhitespace input) = Some result ->
  isValid result = true ->
  getValidationMessage (formatIban input) = Some Valid.
Proof.
  intros Ha. rewrite getValidationMessage_cases, removeWhitespace_idem.
  set (w := removeWhitespace input).
  intros [= <-] Hr.
  assert (Haw : forallb isAscii w = true).
  { rewrite forallb_forall in *. intros c Hc.
    apply filter_In in Hc. now apply Ha. }
  assert (Hacc : acceptsCleaned (toUpperCase w) = true).
  { destruct (falsy w); [discriminate Hr|].
    destruct (_ <? 15)%nat; [discriminate Hr|].
    destruct (34 <? _)%nat; [discriminate Hr|].
    destruct (testCountryPrefix _); [|discriminate Hr].
    now destruct (acceptsCleaned _). }
  destruct (acceptsCleaned_validateIban _ Hacc) as (Hn & _ & H15 & Hp).
  assert (Hnorm : normalize input = toUpperCase w).
  { unfold normalize. f_equal. apply removeNonAlnum_clean; [exact Ha|].
    fold w. now rewrite <- (toUpperCase_ascii w Haw). }
  pose proof (removeWhitespace_formatIban_eq input) as Hw.
  rewrite getValidationMessage_cases, Hw, formatIban_falsy, Hnorm.
  rewrite (toUpperCase_normalized _ Hn), Hp, Hacc.
  pose proof Hacc as Hl. unfold acceptsCleaned in Hl.
  rewrite !andb_true_iff, !Nat.leb_le in Hl. destruct Hl as [[[_ Hl1] Hl2] _].
  rewrite falsy_long by lia.
  destruct (Nat.ltb_spec (length (toUpperCase w)) 15); [lia|].
  destruct (Nat.ltb_spec 34 (length (toUpperCase w))); [lia|].
  reflexivity.
Qed.


(** X16. The stored history under [handleSubmit]: it never grows beyond
    five entries once it is within five, a list without repetitions stays
    without repetitions, every entry is the submitted text or was there
    before, a valid submission is in the history afterwards, and when the
    stored item changes the submitted text is its first entry, followed
    by the four most recent of the old ones. *)
Theorem handleSubmit_history (st st' : ValidatorState) :
  handleSubmit st = Some st' ->
  let old := parseHistory (st_storedHistory st) in
  let new := parseHistory (st_storedHistory st') in
  ((length old <= 5)%nat -> (length new <= 5)%nat)
  /\ (NoDup old -> NoDup new)
  /\ incl new (st_formattedIban st :: old)
  /\ (forall result,
         st_validationResult st' = Some result -> isValid result = true ->
         In (st_formattedIban st) new)
  /\ (st_storedHistory st' <> st_storedHistory st ->
      st_storedHistory st'
      = Some (st_formattedIban st :: firstn 4 old)
      /\ ~ In (st_formattedIban st) old).
Proof.
  unfold handleSubmit.
  destruct (getValidationMessage (st_iban st)) as [r|]; [|discriminate].
  destruct (isValid r) eqn:Hv.
  - destruct (extractBankAccountInfo (st_iban st)) as [i|]; [|discriminate].
    intros H. apply option_some_eq in H. subst st'.
    cbn [st_storedHistory st_validationResult].
    set (old := parseHistory (st_storedHistory st)).
    destruct (includes old (st_formattedIban st)) eqn:Hin; cbn [negb].
    + fold old. apply includes_In in Hin.
      repeat split; auto using incl_tl, incl_refl. easy.
    + cbn [parseHistory].
      change (firstn 5 (st_formattedIban st :: old))
        with (st_formattedIban st :: firstn 4 old).
      assert (Hnin : ~ In (st_formattedIban st) old).
      { intros H. apply includes_In in H. congruence. }
      pose proof (firstn_le_length 4 old) as Hlen.
      pose proof (fun e => firstn_In 4 old e) as Hsub.
      pose proof (firstn_NoDup 4 old) as Hnd.
      remember (firstn 4 old) as recent eqn:Hrecent.
      repeat split.
      * intros _. cbn [length]. lia.
      * intros Hold. constructor; [|now apply Hnd].
        intros H. now apply Hsub in H.
      * intros e [<-|He]; [now left|right]. now apply Hsub.
      * intros _ _ _. now left.
      * exact Hnin.
  - intros H. apply option_some_eq in H. subst st'.
    cbn [st_storedHistory st_validationResult].
    repeat split; auto using incl_tl, incl_refl; try easy.
    intros result [= <-]. congruence.
Qed.

(** X17. What reaches the history is a valid IBAN: when a text of Basic
    Latin characters is entered and then submitted, and the submit changes
    the stored history, the new first entry is the formatted input, and
    [getValidationMessage] reports it valid. *)
Theorem history_entries_valid (input : jsstring) (st st1 st2 : ValidatorState) :
  forallb isAscii input = true ->
  handleInputChange input st = Some st1 ->
  handleSubmit st1 = Some st2 ->
  st_storedHistory st2 <> st_storedHistory st1 ->
  (exists rest, st_storedHistory st2 = Some (formatIban input :: rest))
  /\ getValidationMessage (formatIban input) = Some Valid.
Proof.
  intros Ha H1 H2 Hch.
  assert (Hst1 : st_iban st1 = removeWhitespace input
                 /\ st_formattedIban st1 = formatIban input).
  { unfold handleInputChange in H1. destruct (st_isSubmitted st).
    - destruct (getValidationMessage input) as [r|]; [|discriminate].
      destruct (isValid r).
      + destruct (extractBankAccountInfo input); [|discriminate].
        now injection H1 as <-.
      + now injection H1 as <-.
    - now injection H1 as <-. }
  destruct Hst1 as [Hiban Hfmt].
  unfold handleSubmit in H2. rewrite Hiban, Hfmt in H2.
  destruct (getValidationMessage (removeWhitespace input)) as [r|] eqn:Hr;
    [|discriminate].
  destruct (isValid r) eqn:Hv.
  - destruct (extractBankAccountInfo (removeWhitespace input));
      [|discriminate].
    injection H2 as <-. cbn [st_storedHistory] in Hch |- *.
    destruct (includes _ (formatIban input)); cbn [negb] in Hch |- *;
      [now destruct Hch|].
    split; [eexists; reflexivity|].
    now apply (accepted_ascii_formatted input r).
  - injection H2 as <-. now destruct Hch.
Qed.

End ComponentProperties.

(** ** Outcomes and the country code *)

Lemma filter_fixed_forallb {A} (f : A -> bool) l :
  filter f l = l -> forallb f l = true.
Proof.
  induction l as [|a l IH]; [reflexivity|]. cbn [filter forallb].
  destruct (f a).
  - intros [= H]. now rewrite IH.
  - intros H. pose proof (filter_length_le f l) as Hl.
    rewrite H in Hl. cbn [length] in Hl. lia.
Qed.

Section Outcomes.

Context {UCD : UnicodeData}.

(** X18. [getValidationMessage] has six outcomes and no other, and only
    the one with the message [Valid IBAN] is valid. *)
Theorem getValidationMessage_outcomes (x : jsstring) :
  exists r,
    getValidationMessage x = Some r
    /\ In r [Empty; TooShort; TooLong; BadFormat; InvalidIban; Valid]
    /\ (isValid r = true <-> r = Valid).
Proof.
  rewrite getValidationMessage_cases. eexists. split; [reflexivity|].
  unfold Empty, TooShort, TooLong, BadFormat, InvalidIban, Valid.
  destruct (falsy x); [cbn; intuition congruence|].
  destruct (_ <? 15)%nat; [cbn; intuition congruence|].
  destruct (34 <? _)%nat; [cbn; intuition congruence|].
  destruct (testCountryPrefix _); [|cbn; intuition congruence].
  destruct (acceptsCleaned _); cbn; intuition congruence.
Qed.

(** X19. The country code the component shows beside the input is the
    one of the decomposition: for an input of Basic Latin characters
    without white space that [validateIban] accepts,
    [getCountryFromIban] gives exactly two letters [A-Z], and
    [extractBankAccountInfo] reports the same country code. *)
Theorem country_code_matches (x : jsstring) :
  forallb isAscii x = true ->
  removeWhitespace x = x ->
  validateIban x = Some true ->
  testCountryPrefix (getCountryFromIban x) = true
  /\ length (getCountryFromIban x) = 2%nat
  /\ exists r,
       extractBankAccountInfo x = Some r
       /\ countryCode r = getCountryFromIban x.
Proof.
  intros Ha Hws Hv.
  pose proof (filter_fixed_forallb _ _ Hws) as Hns.
  rewrite validateIban_cleaned, Hws in Hv.
  assert (Hacc : acceptsCleaned (toUpperCase x) = true).
  { apply option_some_eq in Hv. now apply andb_true_iff in Hv. }
  destruct (acceptsCleaned_validateIban _ Hacc) as (Hn & Hvc & H15 & Hp).
  rewrite (toUpperCase_ascii_length x Ha) in H15.
  assert (Hc : getCountryFromIban x = firstn 2 (toUpperCase x)).
  { rewrite getCountryFromIban_cases, (trim_none x Hns).
    now destruct (Nat.ltb_spec (length x) 2); [lia|]. }
  rewrite Hc. destruct (testCountryPrefix_firstn _ Hp) as [Hp2 Hl2].
  split; [exact Hp2|]. split; [exact Hl2|].
  unfold extractBankAccountInfo. rewrite Hws, Hvc.
  rewrite getCountryFromIban_normalized;
    [|exact Hn|rewrite (toUpperCase_ascii_length x Ha); lia].
  destruct (parseByCountry _ _) as [[bank branch] account].
  eexists. split; reflexivity.
Qed.

End Outcomes.

(** ** Concrete inputs

    Evaluations of the module on explicit strings, with the Unicode rows
    of [ucdExcerpt]. *)

(** C1 at the German example: the hypotheses hold and the numeral
    [370400440532013000131489] leaves 1 modulo 97. *)
Lemma validateIban_mod97_witness :
  isNormalized (js "DE89370400440532013000") = true
  /\ (15 <= length (js "DE89370400440532013000") <= 34)%nat
  /\ testCountryPrefix (js "DE89370400440532013000") = true
  /\ (validateIban (UCD := ucdExcerpt) (js "DE89370400440532013000") = Some true
      <-> (decimalValue
             (spec_expand (spec_rearrange (js "DE89370400440532013000")))
           mod 97 = 1)%Z).
Proof.
  assert (Hn : isNormalized (js "DE89370400440532013000") = true)
    by reflexivity.
  assert (Hl : (15 <= length (js "DE89370400440532013000") <= 34)%nat)
    by (split; apply Nat.leb_le; reflexivity).
  assert (Hp : testCountryPrefix (js "DE89370400440532013000") = true)
    by reflexivity.
  split; [exact Hn|]. split; [exact Hl|]. split; [exact Hp|].
  exact (proj1 (validateIban_mod97 (UCD := ucdExcerpt) _ Hn Hl Hp)).
Defined.

(** C3 fails as stated: hyphens are not white space, so they stay in the
    text and the outcome differs from that of the normalized input. *)
Lemma normalize_changes_outcome :
  getValidationMessage (UCD := ucdExcerpt) (js "DE89-3704-0044-0532-0130-00")
  = Some InvalidIban
  /\ getValidationMessage (UCD := ucdExcerpt)
       (normalize (UCD := ucdExcerpt) (js "DE89-3704-0044-0532-0130-00"))
     = Some Valid.
Proof. split; vm_compute; reflexivity. Qed.

(** C3 as amended, at the German example written in groups of four. *)
Lemma message_whitespace_invariant_witness :
  removeWhitespace (js "DE89 3704 0044 0532 0130 00") <> []
  /\ getValidationMessage (UCD := ucdExcerpt) (js "DE89 3704 0044 0532 0130 00")
     = getValidationMessage (UCD := ucdExcerpt)
         (removeWhitespace (js "DE89 3704 0044 0532 0130 00")).
Proof.
  assert (H : removeWhitespace (js "DE89 3704 0044 0532 0130 00") <> [])
    by discriminate.
  split; [exact H|].
  exact (proj1 (message_whitespace_invariant (UCD := ucdExcerpt) _)
               (or_intror H)).
Defined.

(** C4 fails as stated: a single space normalizes to the empty string,
    and the outcome is [TooShort], not [Empty]. *)
Lemma blank_input_is_too_short :
  normalize (UCD := ucdExcerpt) (js " ") = []
  /\ getValidationMessage (UCD := ucdExcerpt) (js " ") = Some TooShort
  /\ getValidationMessage (UCD := ucdExcerpt) (js " ") <> Some Empty.
Proof. repeat split; vm_compute; [reflexivity..|discriminate]. Qed.

(** C4 as amended, at an input whose tail breaks the format: the first
    two letters are there, so the outcome is the generic one. *)
Lemma message_precedence_witness :
  (15 <= length (removeWhitespace (js "DE89-3704-0044-0532")) <= 34)%nat
  /\ testCountryPrefix (toUpperCase (UCD := ucdExcerpt)
       (removeWhitespace (js "DE89-3704-0044-0532"))) = true
  /\ testIbanFormat (toUpperCase (UCD := ucdExcerpt)
       (removeWhitespace (js "DE89-3704-0044-0532"))) = false
  /\ getValidationMessage (UCD := ucdExcerpt) (js "DE89-3704-0044-0532")
     = Some InvalidIban.
Proof.
  assert (Hl : (15 <= length (removeWhitespace (js "DE89-3704-0044-0532"))
                <= 34)%nat)
    by (split; apply Nat.leb_le; reflexivity).
  split; [exact Hl|]. split; [reflexivity|]. split; [reflexivity|].
  now apply (message_precedence (UCD := ucdExcerpt) (js "DE89-3704-0044-0532")).
Defined.

(** C5 fails as stated: on an input with a wrong checksum the country
    code is still reported. *)
Lemma invalid_input_keeps_country :
  validateIban (UCD := ucdExcerpt) (js "DE00370400440532013000") = Some false
  /\ getValidationMessage (UCD := ucdExcerpt) (js "DE00370400440532013000")
     = Some InvalidIban
  /\ extractBankAccountInfo (UCD := ucdExcerpt) (js "DE00370400440532013000")
     = Some {| info_isValid := false;
               countryCode := js "DE";
               bankCode := [];
               branchCode := [];
               accountNumber := [];
               info_message :=
                 "Invalid IBAN. Cannot extract account information." |}.
Proof. repeat split; vm_compute; reflexivity. Qed.

(** C5 as amended, at the same input. *)
Lemma extractBankAccountInfo_invalid_witness :
  validateIban (UCD := ucdExcerpt)
    (toUpperCase (UCD := ucdExcerpt)
       (removeWhitespace (js "DE00370400440532013000"))) = Some false
  /\ extractBankAccountInfo (UCD := ucdExcerpt) (js "DE00370400440532013000")
     = Some {| info_isValid := false;
               countryCode :=
                 getCountryFromIban (UCD := ucdExcerpt)
                   (toUpperCase (UCD := ucdExcerpt)
                      (removeWhitespace (js "DE00370400440532013000")));
               bankCode := [];
               branchCode := [];
               accountNumber := [];
               info_message :=
                 "Invalid IBAN. Cannot extract account information." |}.
Proof.
  assert (H : validateIban (UCD := ucdExcerpt)
                (toUpperCase (UCD := ucdExcerpt)
                   (removeWhitespace (js "DE00370400440532013000")))
              = Some false) by (vm_compute; reflexivity).
  split; [exact H|].
  now apply (extractBankAccountInfo_invalid (UCD := ucdExcerpt)).
Defined.

(** C6 fails as stated: a German IBAN of 16 characters with a right
    checksum has a case in the [switch] and not the length it expects;
    the generic layout is not applied and the bank code stays empty.
    And a Dutch IBAN, which has no case, gets the generic layout with the
    message of a successful extraction, not the partial one. *)
Lemma known_country_wrong_length_not_sliced :
  isNormalized (js "DE22370400440532") = true
  /\ validateIban (UCD := ucdExcerpt) (js "DE22370400440532") = Some true
  /\ expectedLength (firstn 2 (js "DE22370400440532")) = Some 22%Z
  /\ jslength (js "DE22370400440532") = 16%Z
  /\ slice (js "DE22370400440532") 4 (Some 8%Z) = js "3704"
  /\ extractBankAccountInfo (UCD := ucdExcerpt) (js "DE22370400440532")
     = Some {| info_isValid := true;
               countryCode := js "DE";
               bankCode := [];
               branchCode := [];
               accountNumber := [];
               info_message :=
                 "Partial information extracted due to unknown country format" |}
  /\ expectedLength (firstn 2 (js "NL91ABNA0417164300")) = None
  /\ extractBankAccountInfo (UCD := ucdExcerpt) (js "NL91ABNA0417164300")
     = Some {| info_isValid := true;
               countryCode := js "NL";
               bankCode := js "ABNA";
               branchCode := [];
               accountNumber := js "0417164300";
               info_message :=
                 "Successfully extracted bank account information" |}.
Proof. repeat split; vm_compute; reflexivity. Qed.

(** C6 as amended, at a Dutch IBAN (no case in the [switch]). *)
Lemma extractBankAccountInfo_fallback_witness :
  isNormalized (js "NL91ABNA0417164300") = true
  /\ validateIban (UCD := ucdExcerpt) (js "NL91ABNA0417164300") = Some true
  /\ exists r,
       extractBankAccountInfo (UCD := ucdExcerpt) (js "NL91ABNA0417164300")
       = Some r
       /\ bankCode r = slice (js "NL91ABNA0417164300") 4 (Some 8%Z)
       /\ accountNumber r = slice (js "NL91ABNA0417164300") 8 None.
Proof.
  assert (Hn : isNormalized (js "NL91ABNA0417164300") = true) by reflexivity.
  assert (Hv : validateIban (UCD := ucdExcerpt) (js "NL91ABNA0417164300")
               = Some true) by (vm_compute; reflexivity).
  split; [exact Hn|]. split; [exact Hv|].
  destruct (extractBankAccountInfo_fallback (UCD := ucdExcerpt) _ Hn Hv)
    as (r & Hr & _ & _ & Hgeneric & _).
  exists r. split; [exact Hr|].
  destruct (Hgeneric eq_refl) as (Hb & _ & Ha & _). now split.
Defined.

(** C9 at the German example: the format test passes and [BigInt] gets
    digits only. *)
Lemma core_total_witness :
  testIbanFormat (toUpperCase (UCD := ucdExcerpt)
    (removeWhitespace (js "DE89370400440532013000"))) = true
  /\ forallb isDigit
       (numericOf (toUpperCase (UCD := ucdExcerpt)
          (removeWhitespace (js "DE89370400440532013000")))) = true.
Proof.
  assert (H : testIbanFormat (toUpperCase (UCD := ucdExcerpt)
                (removeWhitespace (js "DE89370400440532013000"))) = true)
    by reflexivity.
  split; [exact H|].
  now apply (core_total (UCD := ucdExcerpt) (js "DE89370400440532013000")).
Defined.

(** C10 fails on the code.  [toUpperCase] turns the sharp s (U+00DF) into
    [SS]: the 14 code units [DE40], U+00DF, [000000000] are too short for
    [getValidationMessage], which measures the text before it is put in
    upper case, while [validateIban] measures the 15 characters
    [DE40SS000000000] and accepts them. *)
Lemma validity_paths_disagree :
  toUpperCase (UCD := ucdExcerpt) (js "DE40" ++ [223] ++ js "000000000")
  = js "DE40SS000000000"
  /\ validateIban (UCD := ucdExcerpt) (js "DE40" ++ [223] ++ js "000000000")
     = Some true
  /\ getValidationMessage (UCD := ucdExcerpt)
       (js "DE40" ++ [223] ++ js "000000000")
     = Some TooShort.
Proof. repeat split; vm_compute; reflexivity. Qed.

(** C8 at a lower-case input: the first two characters, in upper case. *)
Lemma getCountryFromIban_prefix_witness :
  (2 <= length (js "de89"))%nat
  /\ getCountryFromIban (UCD := ucdExcerpt) (js "de89") = js "DE".
Proof.
  assert (H : (2 <= length (js "de89"))%nat) by (apply Nat.leb_le; reflexivity).
  split; [exact H|].
  rewrite (proj1 (proj2 (getCountryFromIban_prefix (UCD := ucdExcerpt) _)) H).
  reflexivity.
Defined.

(** X8 at the German example: a [4] in place of the [3] behind the check
    digits. *)
Lemma single_substitution_detected_witness :
  isNormalized (js "DE89" ++ 51 :: js "70400440532013000") = true
  /\ validateIban (UCD := ucdExcerpt)
       (js "DE89" ++ 51 :: js "70400440532013000") = Some true
  /\ validateIban (UCD := ucdExcerpt)
       (js "DE89" ++ 52 :: js "70400440532013000") = Some false.
Proof.
  assert (Hn : isNormalized (js "DE89" ++ 51 :: js "70400440532013000")
               = true) by reflexivity.
  assert (Hv : validateIban (UCD := ucdExcerpt)
                 (js "DE89" ++ 51 :: js "70400440532013000") = Some true)
    by (vm_compute; reflexivity).
  split; [exact Hn|]. split; [exact Hv|].
  apply (single_substitution_detected (UCD := ucdExcerpt)
           (js "DE89") (js "70400440532013000") 51 52 Hn);
    [reflexivity | reflexivity | discriminate | exact Hv].
Defined.

(** X9 at the German example: [37] behind the check digits becomes
    [73]. *)
Lemma adjacent_transposition_detected_witness :
  isNormalized (js "DE89" ++ 51 :: 55 :: js "0400440532013000") = true
  /\ validateIban (UCD := ucdExcerpt)
       (js "DE89" ++ 51 :: 55 :: js "0400440532013000") = Some true
  /\ validateIban (UCD := ucdExcerpt)
       (js "DE89" ++ 55 :: 51 :: js "0400440532013000") = Some false.
Proof.
  assert (Hn : isNormalized (js "DE89" ++ 51 :: 55 :: js "0400440532013000")
               = true) by reflexivity.
  assert (Hv : validateIban (UCD := ucdExcerpt)
                 (js "DE89" ++ 51 :: 55 :: js "0400440532013000")
               = Some true) by (vm_compute; reflexivity).
  split; [exact Hn|]. split; [exact Hv|].
  apply (adjacent_transposition_detected (UCD := ucdExcerpt)
           (js "DE89") (js "0400440532013000") 51 55 Hn);
    [reflexivity | discriminate | discriminate | exact Hv].
Defined.

(** X10 at the British example, entered in lower case with spaces. *)
Lemma valid_message_decomposes_witness :
  getValidationMessage (UCD := ucdExcerpt) (js "gb29 nwbk 6016 1331 9268 19")
  = Some Valid
  /\ exists i,
       extractBankAccountInfo (UCD := ucdExcerpt)
         (js "gb29 nwbk 6016 1331 9268 19") = Some i
       /\ info_isValid i = true.
Proof.
  assert (H : getValidationMessage (UCD := ucdExcerpt)
                (js "gb29 nwbk 6016 1331 9268 19") = Some Valid)
    by (vm_compute; reflexivity).
  split; [exact H|].
  destruct (valid_message_decomposes (UCD := ucdExcerpt) _ _ H eq_refl)
    as (i & Hi & Hvalid & _).
  exists i. now split.
Defined.

(** X11 at the French example: the key [06] is in no field. *)
Lemma extractBankAccountInfo_reassembles_witness :
  isNormalized (js "FR1420041010050500013M02606") = true
  /\ validateIban (UCD := ucdExcerpt) (js "FR1420041010050500013M02606")
     = Some true
  /\ exists r,
       extractBankAccountInfo (UCD := ucdExcerpt)
         (js "FR1420041010050500013M02606") = Some r.
Proof.
  assert (Hn : isNormalized (js "FR1420041010050500013M02606") = true)
    by reflexivity.
  assert (Hv : validateIban (UCD := ucdExcerpt)
                 (js "FR1420041010050500013M02606") = Some true)
    by (vm_compute; reflexivity).
  split; [exact Hn|]. split; [exact Hv|].
  destruct (extractBankAccountInfo_reassembles (UCD := ucdExcerpt) _ Hn Hv)
    as (r & Hr & _).
  now exists r.
Defined.

(** X12 at the British example. *)
Lemma extractBankAccountInfo_widths_witness :
  isNormalized (js "GB29NWBK60161331926819") = true
  /\ validateIban (UCD := ucdExcerpt) (js "GB29NWBK60161331926819")
     = Some true
  /\ exists r,
       extractBankAccountInfo (UCD := ucdExcerpt)
         (js "GB29NWBK60161331926819") = Some r
       /\ length (bankCode r) = 4%nat.
Proof.
  assert (Hn : isNormalized (js "GB29NWBK60161331926819") = true)
    by reflexivity.
  assert (Hv : validateIban (UCD := ucdExcerpt)
                 (js "GB29NWBK60161331926819") = Some true)
    by (vm_compute; reflexivity).
  split; [exact Hn|]. split; [exact Hv|].
  destruct (extractBankAccountInfo_widths (UCD := ucdExcerpt) _ Hn Hv)
    as (r & Hr & _ & _ & Hgb & _).
  exists r. split; [exact Hr|]. now apply Hgb.
Defined.

(** X14 at an input with a wrong checksum. *)
Lemma extractBankAccountInfo_isValid_witness :
  forallb isAscii (js "de00 3704 0044 0532 0130 00") = true
  /\ exists r,
       extractBankAccountInfo (UCD := ucdExcerpt)
         (js "de00 3704 0044 0532 0130 00") = Some r
       /\ validateIban (UCD := ucdExcerpt) (js "de00 3704 0044 0532 0130 00")
          = Some (info_isValid r).
Proof.
  assert (Ha : forallb isAscii (js "de00 3704 0044 0532 0130 00") = true)
    by reflexivity.
  split; [exact Ha|].
  exact (extractBankAccountInfo_isValid (UCD := ucdExcerpt) _ Ha).
Defined.


(** X16 at the German example typed into a fresh component with an empty
    store. *)
Lemma handleSubmit_history_witness :
  handleSubmit (UCD := ucdExcerpt) enteredState = Some submittedState
  /\ (length (parseHistory (st_storedHistory submittedState)) <= 5)%nat
  /\ In (st_formattedIban enteredState)
        (parseHistory (st_storedHistory submittedState)).
Proof.
  assert (H : handleSubmit (UCD := ucdExcerpt) enteredState
              = Some submittedState) by (vm_compute; reflexivity).
  split; [exact H|].
  destruct (handleSubmit_history (UCD := ucdExcerpt) _ _ H)
    as (Hlen & _ & _ & Hin & _).
  split.
  - apply Hlen. apply Nat.leb_le. reflexivity.
  - now apply (Hin Valid).
Defined.

(** X17 at the same input. *)
Lemma history_entries_valid_witness :
  forallb isAscii (js "DE89 3704 0044 0532 0130 00") = true
  /\ handleInputChange (UCD := ucdExcerpt) (js "DE89 3704 0044 0532 0130 00")
       (initialState None) = Some enteredState
  /\ handleSubmit (UCD := ucdExcerpt) enteredState = Some submittedState
  /\ getValidationMessage (UCD := ucdExcerpt)
       (formatIban (UCD := ucdExcerpt) (js "DE89 3704 0044 0532 0130 00"))
     = Some Valid.
Proof.
  assert (Ha : forallb isAscii (js "DE89 3704 0044 0532 0130 00") = true)
    by reflexivity.
  assert (H1 : handleInputChange (UCD := ucdExcerpt)
                 (js "DE89 3704 0044 0532 0130 00") (initialState None)
               = Some enteredState) by (vm_compute; reflexivity).
  assert (H2 : handleSubmit (UCD := ucdExcerpt) enteredState
               = Some submittedState) by (vm_compute; reflexivity).
  split; [exact Ha|]. split; [exact H1|]. split; [exact H2|].
  refine (proj2 (history_entries_valid (UCD := ucdExcerpt) _ _ _ _
                   Ha H1 H2 _)).
  discriminate.
Defined.

(** The agreement of the two paths at a lower-case input. *)
Lemma validity_paths_agree_ascii_witness :
  forallb isAscii (js "gb29 nwbk 6016 1331 9268 19") = true
  /\ option_map isValid
       (getValidationMessage (UCD := ucdExcerpt)
          (js "gb29 nwbk 6016 1331 9268 19"))
     = validateIban (UCD := ucdExcerpt) (js "gb29 nwbk 6016 1331 9268 19").
Proof.
  assert (Ha : forallb isAscii (js "gb29 nwbk 6016 1331 9268 19") = true)
    by reflexivity.
  split; [exact Ha|].
  exact (validity_paths_agree_ascii (UCD := ucdExcerpt) _ Ha).
Defined.

Lemma message_valid_implies_validateIban_witness :
  option_map isValid
    (getValidationMessage (UCD := ucdExcerpt) (js "NL91ABNA0417164300"))
  = Some true
  /\ validateIban (UCD := ucdExcerpt) (js "NL91ABNA0417164300") = Some true.
Proof.
  assert (H : option_map isValid
                (getValidationMessage (UCD := ucdExcerpt)
                   (js "NL91ABNA0417164300")) = Some true)
    by (vm_compute; reflexivity).
  split; [exact H|].
  exact (message_valid_implies_validateIban (UCD := ucdExcerpt) _ H).
Defined.

(** X19 at the British example as the component stores it. *)
Lemma country_code_matches_witness :
  forallb isAscii (js "gb29nwbk60161331926819") = true
  /\ removeWhitespace (js "gb29nwbk60161331926819")
     = js "gb29nwbk60161331926819"
  /\ validateIban (UCD := ucdExcerpt) (js "gb29nwbk60161331926819")
     = Some true
  /\ length (getCountryFromIban (UCD := ucdExcerpt)
               (js "gb29nwbk60161331926819")) = 2%nat.
Proof.
  assert (Ha : forallb isAscii (js "gb29nwbk60161331926819") = true)
    by reflexivity.
  assert (Hw : removeWhitespace (js "gb29nwbk60161331926819")
               = js "gb29nwbk60161331926819") by reflexivity.
  assert (Hv : validateIban (UCD := ucdExcerpt) (js "gb29nwbk60161331926819")
               = Some true) by (vm_compute; reflexivity).
  split; [exact Ha|]. split; [exact Hw|]. split; [exact Hv|].
  exact (proj1 (proj2 (country_code_matches (UCD := ucdExcerpt) _ Ha Hw Hv))).
Defined.
